(** * pyreset: resetting the transfer counters of glFTPD userfiles

    A shallow embedding of [pyreset.py] and the properties of its two
    components, the line resetter [reset_stats_line] and the record
    processor [process_userfile], together with the selector resolution
    and the batch loop of [main]. *)

From Stdlib Require Import NArith String Ascii Lia DecimalString.
From stdpp Require Import base list functions.

Local Open Scope N_scope.

(** ** Python text

    A Python [str] is a sequence of Unicode code points. *)

Definition char : Type := N.
Definition str : Type := list char.

(** Source literals, written as Rocq strings and read as code points. *)
Definition py (s : string) : str :=
  map N_of_ascii (list_ascii_of_string s).

(** The line feed, written [\n] in the source. *)
Definition LF : char := 10.
Definition CR : char := 13.
Definition SPACE : char := 32.

(** [str.isspace] on one code point, which is what [str.split()] splits
    on: the ASCII controls 0x09-0x0D and 0x1C-0x1F, the space, and the
    Unicode separators. *)
Definition isspace (c : char) : bool :=
  ((9 <=? c) && (c <=? 13)) || ((28 <=? c) && (c <=? 32))
  || (c =? 133) || (c =? 160) || (c =? 5760)
  || ((8192 <=? c) && (c <=? 8202))
  || (c =? 8232) || (c =? 8233) || (c =? 8239) || (c =? 8287)
  || (c =? 12288).

(** [s.startswith(p)] *)
Fixpoint startswith (s p : str) {struct p} : bool :=
  match p, s with
  | [], _ => true
  | _ :: _, [] => false
  | b :: p', a :: s' => (a =? b) && startswith s' p'
  end.

(** [t in s] on strings: [t] occurs in [s] as a contiguous run. *)
Fixpoint contains (s t : str) : bool :=
  startswith s t ||
  match s with
  | [] => false
  | _ :: s' => contains s' t
  end.

(** [s.split()]: the maximal runs of non-whitespace, in order; leading,
    trailing and repeated whitespace yields no empty token. *)
Fixpoint split (s : str) : list str :=
  match s with
  | [] => []
  | c :: s' =>
      if isspace c then split s'
      else match s' with
           | [] => [[c]]
           | c' :: _ =>
               if isspace c' then [c] :: split s'
               else match split s' with
                    | w :: ws => (c :: w) :: ws
                    | [] => [[c]]
                    end
           end
  end.

(** ** The line resetter (pyreset.py, lines 21-30) *)

Definition reset_stats_line (line reset_type : str) : str :=
  if contains line reset_type then
    let parts := split line in
    if (4 <=? length parts)%nat then
      match parts with
      | p0 :: _ => p0 ++ py " 0 0 0" ++ [LF]
      | [] => line
      end
    else line
  else line.

(** ** The record processor (pyreset.py, lines 32-94) *)

(** The four keyword arguments of [process_userfile]. *)
Record selector : Type := Selector {
  reset_day : bool;
  reset_week : bool;
  reset_month : bool;
  reset_all : bool
}.

(** The local variables of the loop over the lines. *)
Record loop_state : Type := LoopState {
  modified : bool;
  new_lines : list str;
  in_section : bool
}.

Definition loop_init : loop_state :=
  {| modified := false; new_lines := []; in_section := false |}.

(** Lines 57-80: the [if]/[elif] chain run on a line inside a section.
    It returns the new value of [line] and of [modified]. *)
Definition dispatch (sel : selector) (line : str) (m : bool) : str * bool :=
  if reset_day sel && startswith line (py "DAYUP ") then
    (reset_stats_line line (py "DAYUP"), true)
  else if reset_day sel && startswith line (py "DAYDN ") then
    (reset_stats_line line (py "DAYDN"), true)
  else if reset_week sel && startswith line (py "WKUP ") then
    (reset_stats_line line (py "WKUP"), true)
  else if reset_week sel && startswith line (py "WKDN ") then
    (reset_stats_line line (py "WKDN"), true)
  else if reset_month sel && startswith line (py "MONTHUP ") then
    (reset_stats_line line (py "MONTHUP"), true)
  else if reset_month sel && startswith line (py "MONTHDN ") then
    (reset_stats_line line (py "MONTHDN"), true)
  else if reset_all sel && startswith line (py "ALLUP ") then
    (reset_stats_line line (py "ALLUP"), true)
  else if reset_all sel && startswith line (py "ALLDN ") then
    (reset_stats_line line (py "ALLDN"), true)
  else (line, m).

(** Lines 43-82: one iteration of the loop. *)
Definition loop_body (sel : selector) (st : loop_state) (line : str)
  : loop_state :=
  if contains line (py "[SECTION]") then
    {| modified := modified st;
       new_lines := new_lines st ++ [line];
       in_section := true |}
  else if contains line (py "[ENDSECTION]") then
    {| modified := modified st;
       new_lines := new_lines st ++ [line];
       in_section := false |}
  else if in_section st then
    let '(line', m) := dispatch sel line (modified st) in
    {| modified := m;
       new_lines := new_lines st ++ [line'];
       in_section := in_section st |}
  else
    {| modified := modified st;
       new_lines := new_lines st ++ [line];
       in_section := in_section st |}.

(** Lines 38-82: the whole loop, from a given state and from the start. *)
Definition scan_from (sel : selector) (st : loop_state) (lines : list str)
  : loop_state :=
  fold_left (loop_body sel) lines st.

Definition scan (sel : selector) (lines : list str) : loop_state :=
  scan_from sel loop_init lines.

(** The record processor as a function on line sequences: the lines it
    would write and whether it reports the record as modified. *)
Definition process_lines (sel : selector) (lines : list str)
  : list str * bool :=
  let st := scan sel lines in (new_lines st, modified st).

(** ** Files and the interpreter's output *)

(** An exception, as far as the program observes it: the text that
    [print(f"... {e}")] shows. *)
Record exn : Type := Exception { exn_str : str }.

(** What a path holds: its decoded text; the exception that opening it
    for reading (or decoding it) raises, if any; the exception that
    opening it for writing raises, if any, in which case the file is not
    touched; and the fault of a write that got past [open]: the exception
    raised by [writelines] or by closing the file, and the number of
    characters that reached the file before it. A path that names no file
    is one whose [read_err] is set. *)
Record file : Type := File {
  data : str;
  read_err : option exn;
  write_err : option exn;
  write_fault : option (nat * exn)
}.

(** The files, what was printed, and the paths that were passed to
    [open(path, 'w')], in order. Every path is taken to name a file of its
    own: links are not modelled. Which files a run may write to is
    therefore stated of the paths it opens for writing, which does not
    depend on this. *)
Record world : Type := World {
  fs : str -> file;
  stdout : list str;
  opened_w : list str
}.

Definition print (w : world) (msg : str) : world :=
  {| fs := fs w; stdout := stdout w ++ [msg]; opened_w := opened_w w |}.

(** Text mode with the default [newline=None]: on reading, [\r\n] and a
    lone [\r] become [\n]. *)
Fixpoint universal_newlines (s : str) : str :=
  match s with
  | [] => []
  | c :: s' =>
      if c =? CR then
        LF :: match s' with
              | c' :: s'' =>
                  if c' =? LF then universal_newlines s''
                  else universal_newlines s'
              | [] => []
              end
      else c :: universal_newlines s'
  end.

(** Cut after every [\n], keeping it; a last line without one is kept. *)
Fixpoint keepends (s : str) : list str :=
  match s with
  | [] => []
  | c :: s' =>
      if c =? LF then [c] :: keepends s'
      else match keepends s' with
           | l :: ls => (c :: l) :: ls
           | [] => [[c]]
           end
  end.

(** [open(path, 'r')] followed by [f.readlines()]. *)
Definition readlines (w : world) (path : str) : exn + list str :=
  match read_err (fs w path) with
  | Some e => inl e
  | None => inr (keepends (universal_newlines (data (fs w path))))
  end.

(** [open(path, 'w')] was called and raised: nothing but the call. *)
Definition note_open (w : world) (path : str) : world :=
  {| fs := fs w; stdout := stdout w; opened_w := opened_w w ++ [path] |}.

(** [open(path, 'w')] went through, which empties the file, and [text]
    reached it. *)
Definition store (w : world) (path : str) (text : str) : world :=
  let f := fs w path in
  {| fs := <[path := {| data := text;
                        read_err := read_err f;
                        write_err := write_err f;
                        write_fault := write_fault f |}]> (fs w);
     stdout := stdout w;
     opened_w := opened_w w ++ [path] |}.

(** [open(path, 'w')] followed by [f.writelines(lines)] and the closing
    of the file: the world after it, and the exception raised, if any.
    When [open] raises, the file is as it was; when the write or the
    closing raises, the file is left with the part of the text that had
    reached it. *)
Definition writelines (w : world) (path : str) (lines : list str)
  : world * option exn :=
  match write_err (fs w path) with
  | Some e => (note_open w path, Some e)
  | None =>
      match write_fault (fs w path) with
      | Some (n, e) => (store w path (take n (concat lines)), Some e)
      | None => (store w path (concat lines), None)
      end
  end.

(** The [except Exception as e] clause, lines 92-94. *)
Definition handler (w : world) (userfile : str) (e : exn) : world * bool :=
  (print w (py "Error processing " ++ userfile ++ py ": " ++ exn_str e),
   false).

(** [process_userfile], lines 32-94: the world after the call and the
    value returned. *)
Definition process_userfile (w : world) (userfile : str) (sel : selector)
  : world * bool :=
  match readlines w userfile with
  | inl e => handler w userfile e
  | inr lines =>
      let st := scan sel lines in
      if modified st then
        match writelines w userfile (new_lines st) with
        | (w', Some e) => handler w' userfile e
        | (w', None) => (w', true)
        end
      else (w, false)
  end.

(** ** The driver (pyreset.py, lines 96-205) *)

(** [datetime.weekday()]: Monday is 0 and Sunday is 6. *)
Inductive day_of_week : Type :=
  Monday | Tuesday | Wednesday | Thursday | Friday | Saturday | Sunday.

Definition weekday_number (d : day_of_week) : N :=
  match d with
  | Monday => 0 | Tuesday => 1 | Wednesday => 2 | Thursday => 3
  | Friday => 4 | Saturday => 5 | Sunday => 6
  end.

(** What [datetime.now()] is asked for. *)
Record datetime : Type := Datetime {
  weekday : day_of_week;
  day : N
}.

(** The parsed command line, as far as the resets go. *)
Record arguments : Type := Args {
  arg_monday : bool;
  arg_day : bool;
  arg_week : bool;
  arg_month : bool;
  arg_alltime : bool
}.

(** Lines 153-171: the flags handed to every record, and what is printed
    on the way. *)
Definition determine_resets (args : arguments) (now : datetime)
  : selector * list str :=
  let reset_day := arg_day args in
  let reset_week := arg_week args in
  let reset_month := arg_month args in
  let reset_all := arg_alltime args in
  if negb (reset_day || reset_week || reset_month || reset_all) then
    let reset_week_day := if arg_monday args then 0 else 6 in
    let reset_day := true in
    let '(reset_week, out1) :=
      if weekday_number (weekday now) =? reset_week_day
      then (true, [py "Weekly reset triggered"])
      else (reset_week, []) in
    let '(reset_month, out2) :=
      if day now =? 1
      then (true, [py "Monthly reset triggered"])
      else (reset_month, []) in
    (Selector reset_day reset_week reset_month reset_all, out1 ++ out2)
  else (Selector reset_day reset_week reset_month reset_all, []).

(** Lines 185-189: the loop over the userfiles, carrying the world and
    [success_count]. *)
Fixpoint process_all (w : world) (sel : selector) (userfiles : list str)
    (success_count : N) : world * N :=
  match userfiles with
  | [] => (w, success_count)
  | userfile :: rest =>
      let '(w', ok) := process_userfile w userfile sel in
      process_all w' sel rest (if ok then success_count + 1 else success_count)
  end.

(** *** Paths, numbers and joins

    The functions of [os.path] are those of [posixpath]: the program is
    run where glFTPD runs. *)

Definition SLASH : char := 47.

(** The truth value of a string: it is not empty. *)
Definition truthy (s : str) : bool :=
  match s with
  | [] => false
  | _ :: _ => true
  end.

(** [s.endswith('/')] *)
Fixpoint endswith_sep (s : str) : bool :=
  match s with
  | [] => false
  | c :: s' =>
      match s' with
      | [] => c =? SLASH
      | _ :: _ => endswith_sep s'
      end
  end.

(** [os.path.join(a, b)] *)
Definition path_join (a b : str) : str :=
  if startswith b [SLASH] then b
  else if negb (truthy a) || endswith_sep a then a ++ b
  else a ++ [SLASH] ++ b.

(** [p[:p.rfind('/') + 1]]: the part of [p] up to its last slash. *)
Fixpoint head_upto_sep (p : str) : str :=
  match p with
  | [] => []
  | c :: p' =>
      let h := head_upto_sep p' in
      if (c =? SLASH) || truthy h then c :: h else []
  end.

(** [s.rstrip('/')] *)
Fixpoint rstrip_sep (s : str) : str :=
  match s with
  | [] => []
  | c :: s' =>
      let r := rstrip_sep s' in
      if (c =? SLASH) && negb (truthy r) then [] else c :: r
  end.

(** [os.path.dirname(p)] *)
Definition dirname (p : str) : str :=
  let head := head_upto_sep p in
  if truthy head && negb (forallb (fun c => c =? SLASH) head)
  then rstrip_sep head
  else head.

(** [str(n)] on a count. *)
Definition str_of_int (n : N) : str :=
  py (NilZero.string_of_uint (N.to_uint n)).

(** [sep.join(items)] *)
Fixpoint str_join (sep : str) (items : list str) : str :=
  match items with
  | [] => []
  | x :: rest =>
      match rest with
      | [] => x
      | _ :: _ => x ++ sep ++ str_join sep rest
      end
  end.

Definition print_all (w : world) (msgs : list str) : world :=
  fold_left print msgs w.

(** *** [main] *)

Definition DEFAULT_GLFTPD_PATH : str := py "/glftpd".
Definition DEFAULT_USERFILE_DIR : str := py "ftp-data/users".

(** The namespace returned by [parser.parse_args()]. *)
Record cmdline : Type := Cmdline {
  arg_config : option str;
  arg_help : bool;
  arg_resets : arguments
}.

(** What [os.path.exists], [os.listdir] and [os.path.isfile] answer. *)
Record directory_tree : Type := DirectoryTree {
  os_path_exists : str -> bool;
  os_listdir : str -> exn + list str;
  os_path_isfile : str -> bool
}.

(** How a run ends: [main] returns, [sys.exit] is called, or an
    exception leaves [main]. *)
Inductive outcome : Type :=
  | Returned
  | SysExit (code : N)
  | Raised (e : exn).

(** Lines 128-136. *)
Definition help_text : list str :=
  [py "glFTPD UserStat Reset v1.0";
   py "Options:";
   py "  -r {path}    Use Alternate Config file.";
   py "  -e           Reset on Monday versus Sunday.";
   py "  -d           Reset Today's Stats Only.";
   py "  -w           Reset Week Stats Only.";
   py "  -m           Reset Month Stats Only.";
   py "  -a           Reset Alltime Stats Only.";
   py "  -h/?         This Help Screen"].

(** Lines 140-145. *)
Definition userfile_dir (args : cmdline) : str :=
  let glftpd_path :=
    match arg_config args with
    | Some config =>
        if truthy config then dirname config else DEFAULT_GLFTPD_PATH
    | None => DEFAULT_GLFTPD_PATH
    end in
  path_join glftpd_path DEFAULT_USERFILE_DIR.

(** Lines 174-178: the regular files of the directory, in the order of
    the listing. *)
Fixpoint collect_userfiles (t : directory_tree) (dir : str)
    (items : list str) : list str :=
  match items with
  | [] => []
  | item :: rest =>
      let filepath := path_join dir item in
      if os_path_isfile t filepath
      then filepath :: collect_userfiles t dir rest
      else collect_userfiles t dir rest
  end.

(** Lines 194-202. *)
Definition reset_items (sel : selector) : list str :=
  (if reset_day sel then [py "Day"] else [])
  ++ (if reset_week sel then [py "Week"] else [])
  ++ (if reset_month sel then [py "Month"] else [])
  ++ (if reset_all sel then [py "Alltime"] else []).

(** Lines 203-205. *)
Definition report_resets (w : world) (sel : selector) : world :=
  match reset_items sel with
  | [] => w
  | _ :: _ =>
      print w (py "Reset: " ++ str_join (py ", ") (reset_items sel)
               ++ py " statistics")
  end.

(** [main], lines 96-205, from the parsed command line on. *)
Definition main (args : cmdline) (now : datetime) (t : directory_tree)
    (w : world) : world * outcome :=
  if arg_help args then (print_all w help_text, SysExit 0)
  else
    let dir := userfile_dir args in
    if negb (os_path_exists t dir) then
      (print_all w
         [py "Error: User directory not found: " ++ dir;
          py "Please specify the correct path with -r option"],
       SysExit 1)
    else
      let '(sel, triggered) := determine_resets (arg_resets args) now in
      let w := print_all w triggered in
      match os_listdir t dir with
      | inl e => (w, Raised e)
      | inr items =>
          let userfiles := collect_userfiles t dir items in
          if negb (match userfiles with [] => false | _ :: _ => true end)
          then (print w (py "No userfiles found in " ++ dir), SysExit 1)
          else
            let w :=
              print w (py "Processing "
                       ++ str_of_int (N.of_nat (length userfiles))
                       ++ py " userfiles...") in
            let '(w, success_count) := process_all w sel userfiles 0 in
            let w :=
              print w (py "Successfully reset stats in "
                       ++ str_of_int success_count ++ py " userfiles") in
            (report_resets w sel, Returned)
      end.

(** ** Vocabulary of the specification *)

(** The first whitespace-delimited token of a line, read off the line
    itself: skip the leading whitespace, then take up to the next one. *)
Fixpoint word (s : str) : str :=
  match s with
  | [] => []
  | c :: s' => if isspace c then [] else c :: word s'
  end.

Fixpoint first_token (s : str) : str :=
  match s with
  | [] => []
  | c :: s' => if isspace c then first_token s' else c :: word s'
  end.

(** The eight counter kinds, their prefix tokens, and the flag that
    governs each. *)
Inductive counter : Type :=
  DAYUP | DAYDN | WKUP | WKDN | MONTHUP | MONTHDN | ALLUP | ALLDN.

Definition tag (k : counter) : str :=
  match k with
  | DAYUP => py "DAYUP" | DAYDN => py "DAYDN"
  | WKUP => py "WKUP" | WKDN => py "WKDN"
  | MONTHUP => py "MONTHUP" | MONTHDN => py "MONTHDN"
  | ALLUP => py "ALLUP" | ALLDN => py "ALLDN"
  end.

Definition governing_flag (sel : selector) (k : counter) : bool :=
  match k with
  | DAYUP | DAYDN => reset_day sel
  | WKUP | WKDN => reset_week sel
  | MONTHUP | MONTHDN => reset_month sel
  | ALLUP | ALLDN => reset_all sel
  end.

(** A counter line of kind [k]: it starts with the tag and a space. *)
Definition counter_line (k : counter) (line : str) : Prop :=
  startswith line (tag k ++ [SPACE]) = true.

(** A line on which the loop only moves the section toggle. *)
Definition is_marker (line : str) : bool :=
  contains line (py "[SECTION]") || contains line (py "[ENDSECTION]").

(** The value of [in_section] when the loop reaches line [i]. *)
Definition in_section_before (sel : selector) (lines : list str) (i : nat)
  : bool :=
  in_section (scan sel (take i lines)).

(** What the loop appends for a line met with [in_section = ins]. *)
Definition emit (sel : selector) (ins : bool) (line : str) : str :=
  if is_marker line then line
  else if ins then fst (dispatch sel line false)
  else line.

(** A source line ending in a line feed. *)
Definition ln (s : string) : str := py s ++ [LF].

(** The record of the specification's third example. *)
Definition example3 : list str :=
  [ln "[SECTION]"; ln "DAYUP 1 2 3"; ln "[ENDSECTION]"; ln "DAYUP 1 2 3"].

(** A record whose day counter is already zero. *)
Definition already_reset : list str :=
  [ln "[SECTION]"; ln "DAYUP 0 0 0"; ln "[ENDSECTION]"].

(** A small world: [alice] holds [already_reset], [bob] cannot be read,
    [carol] holds the third example but cannot be written, and no other
    path names a file. *)
Definition alice : str := py "/glftpd/ftp-data/users/alice".
Definition bob : str := py "/glftpd/ftp-data/users/bob".
Definition carol : str := py "/glftpd/ftp-data/users/carol".

Definition eacces : exn := Exception (py "[Errno 13] Permission denied").
Definition enoent : exn :=
  Exception (py "[Errno 2] No such file or directory").

Definition small_world : world :=
  {| fs := fun path =>
       if decide (path = alice) then
         {| data := concat already_reset;
            read_err := None; write_err := None; write_fault := None |}
       else if decide (path = bob) then
         {| data := concat example3;
            read_err := Some eacces; write_err := Some eacces;
            write_fault := None |}
       else if decide (path = carol) then
         {| data := concat example3;
            read_err := None; write_err := Some eacces;
            write_fault := None |}
       else
         {| data := []; read_err := Some enoent; write_err := None;
            write_fault := None |};
     stdout := [];
     opened_w := [] |}.

(** A world in which the disk is full: [alice] can be opened for writing,
    but the write raises after five characters. *)
Definition enospc : exn :=
  Exception (py "[Errno 28] No space left on device").

Definition full_disk_world : world :=
  {| fs := fun path =>
       if decide (path = alice) then
         {| data := concat example3;
            read_err := None; write_err := None;
            write_fault := Some (5%nat, enospc) |}
       else if decide (path = bob) then
         {| data := concat example3;
            read_err := None; write_err := None; write_fault := None |}
       else
         {| data := []; read_err := Some enoent; write_err := None;
            write_fault := None |};
     stdout := [];
     opened_w := [] |}.

Definition no_reset : selector := Selector false false false false.
Definition day_only : selector := Selector true false false false.
Definition week_only : selector := Selector false true false false.

(** The selector that has the flags of both. *)
Definition sel_or (s1 s2 : selector) : selector :=
  {| reset_day := reset_day s1 || reset_day s2;
     reset_week := reset_week s1 || reset_week s2;
     reset_month := reset_month s1 || reset_month s2;
     reset_all := reset_all s1 || reset_all s2 |}.

(** The section toggle after a line. *)
Definition toggle (ins : bool) (line : str) : bool :=
  if contains line (py "[SECTION]") then true
  else if contains line (py "[ENDSECTION]") then false
  else ins.

(** The lines emitted for a run of lines met with the toggle at [ins]. *)
Fixpoint emit_all (sel : selector) (ins : bool) (lines : list str)
  : list str :=
  match lines with
  | [] => []
  | line :: rest => emit sel ins line :: emit_all sel (toggle ins line) rest
  end.

(** The shape of what [readlines] returns: no carriage return anywhere,
    every line non-empty with no line feed but at its end, and every line
    but the last ending in one. *)
Definition no_CR (s : str) : bool := forallb (fun c => negb (c =? CR)) s.

Fixpoint ends_LF (l : str) : bool :=
  match l with
  | [] => false
  | c :: l' =>
      match l' with
      | [] => c =? LF
      | _ :: _ => ends_LF l'
      end
  end.

Fixpoint tidy_line (l : str) : bool :=
  match l with
  | [] => false
  | c :: l' =>
      negb (c =? CR) &&
      match l' with
      | [] => true
      | _ :: _ => negb (c =? LF) && tidy_line l'
      end
  end.

Fixpoint tidy_lines (ls : list str) : bool :=
  match ls with
  | [] => true
  | l :: ls' =>
      tidy_line l &&
      match ls' with
      | [] => true
      | _ :: _ => ends_LF l && tidy_lines ls'
      end
  end.

(** A world with one userfile that has CRLF line ends. *)
Definition crlf_world : world :=
  {| fs := fun path =>
       if decide (path = alice) then
         {| data := py "[SECTION]" ++ [CR; LF] ++ py "DAYUP 1 2 3" ++ [CR; LF]
                    ++ py "GROUP staff" ++ [CR; LF];
            read_err := None; write_err := None; write_fault := None |}
       else
         {| data := []; read_err := Some enoent; write_err := None;
            write_fault := None |};
     stdout := [];
     opened_w := [] |}.

(** A directory tree for [small_world]: the user directory holds the
    three userfiles and a subdirectory. *)
Definition users_tree : directory_tree :=
  {| os_path_exists := fun path =>
       bool_decide (path = py "/glftpd/ftp-data/users");
     os_listdir := fun path =>
       if decide (path = py "/glftpd/ftp-data/users")
       then inr [py "alice"; py "bob"; py "backup"; py "carol"]
       else inl enoent;
     os_path_isfile := fun path =>
       bool_decide (path = alice) || bool_decide (path = bob)
       || bool_decide (path = carol) |}.

Definition plain_run : cmdline :=
  {| arg_config := None; arg_help := false;
     arg_resets := Args false false false false false |}.

(** * Properties *)

(** ** Strings *)

Section Strings.
Implicit Types s t p q r : str.

Lemma startswith_prefix s p :
  startswith s p = true <-> exists r, s = p ++ r.
Proof.
  revert s; induction p as [|b p IH]; intros s; simpl.
  - split; [intros _; by exists s | done].
  - destruct s as [|a s].
    + split; [discriminate | intros [r Hr]; discriminate].
    + rewrite andb_true_iff, N.eqb_eq, IH. split.
      * intros [-> [r ->]]; eauto.
      * intros [r Hr]; injection Hr as -> ->; eauto.
Qed.

Lemma startswith_app s p q :
  startswith s (p ++ q) = true -> startswith s p = true.
Proof.
  rewrite !startswith_prefix. intros [r ->].
  exists (q ++ r). by rewrite app_assoc.
Qed.

Lemma startswith_contains s t :
  startswith s t = true -> contains s t = true.
Proof. intros H. destruct s; simpl in *; by rewrite H. Qed.

Lemma contains_cons c s t :
  contains s t = true -> contains (c :: s) t = true.
Proof. intros H. simpl. rewrite H. apply orb_true_r. Qed.

Lemma contains_app_l p s t :
  contains s t = true -> contains (p ++ s) t = true.
Proof. induction p; simpl; [done|]. intros H. by rewrite IHp, orb_true_r. Qed.

(** The first element of [split] is the first token of the line. *)
Lemma split_word c s :
  isspace c = false ->
  exists ws, split (c :: s) = (c :: word s) :: ws.
Proof.
  revert c; induction s as [|c' s IH]; intros c Hc; simpl; rewrite Hc.
  - eauto.
  - destruct (isspace c') eqn:Hc'; [eauto|].
    destruct (IH c' Hc') as [ws Hws].
    simpl in Hws. rewrite Hc' in Hws. rewrite Hws. eauto.
Qed.

Lemma split_first_token s w ws :
  split s = w :: ws -> w = first_token s.
Proof.
  induction s as [|c s IH]; [discriminate|].
  destruct (isspace c) eqn:Hc.
  - simpl. rewrite Hc. exact IH.
  - destruct (split_word c s Hc) as [ws' Hws]. rewrite Hws.
    intros [= <- _]. simpl. by rewrite Hc.
Qed.

(** A token followed by a space is split off as it stands. *)
Lemma split_token t r :
  t <> [] -> forallb (fun c => negb (isspace c)) t = true ->
  split (t ++ SPACE :: r) = t :: split r.
Proof.
  induction t as [|c t IH]; [done|]. intros _ Ht. simpl in Ht.
  apply andb_true_iff in Ht as [Hc Ht]. apply negb_true_iff in Hc.
  destruct t as [|c' t].
  - simpl. by rewrite Hc.
  - specialize (IH ltac:(done) Ht).
    change ((c :: c' :: t) ++ SPACE :: r) with (c :: (c' :: t) ++ SPACE :: r).
    cbn [split]. rewrite Hc.
    change ((c' :: t) ++ SPACE :: r) with (c' :: t ++ SPACE :: r) in *.
    simpl in Ht. apply andb_true_iff in Ht as [Hc' _].
    apply negb_true_iff in Hc'. rewrite Hc'.
    by rewrite IH.
Qed.

Lemma tag_token k :
  tag k <> [] /\ forallb (fun c => negb (isspace c)) (tag k) = true.
Proof. by destruct k. Qed.

(** On a line that starts with a tag and a space, the resetter finds the
    tag, and the first token is the tag. *)
Lemma counter_line_inv k line :
  counter_line k line -> exists r, line = tag k ++ SPACE :: r.
Proof.
  unfold counter_line. rewrite startswith_prefix. intros [r ->].
  exists r. by rewrite <- app_assoc.
Qed.

Lemma counter_line_contains k line :
  counter_line k line -> contains line (tag k) = true.
Proof.
  intros H. apply startswith_contains. by eapply startswith_app.
Qed.

Lemma counter_line_split k line :
  counter_line k line -> exists ps, split line = tag k :: ps.
Proof.
  intros [r ->]%counter_line_inv. destruct (tag_token k) as [H1 H2].
  rewrite split_token by done. eauto.
Qed.

Lemma reset_counter_line k line :
  counter_line k line ->
  reset_stats_line line (tag k)
  = if (4 <=? length (split line))%nat
    then tag k ++ py " 0 0 0" ++ [LF] else line.
Proof.
  intros H. unfold reset_stats_line.
  rewrite (counter_line_contains _ _ H).
  destruct (counter_line_split _ _ H) as [ps ->].
  by destruct (4 <=? length (tag k :: ps))%nat.
Qed.
End Strings.

(** ** The dispatch chain *)

Section Dispatch.
Implicit Types (sel : selector) (line : str) (k : counter) (m : bool).

(** On a counter line the chain is decided by the governing flag of its
    own tag alone. *)
Lemma dispatch_counter_line sel k line m :
  counter_line k line ->
  dispatch sel line m
  = if governing_flag sel k then (reset_stats_line line (tag k), true)
    else (line, m).
Proof.
  intros [r ->]%counter_line_inv.
  destruct k, sel as [[] [] [] []]; reflexivity.
Qed.

(** Whatever the chain does, a branch that fires is one of the eight. *)
Lemma dispatch_cases sel line m :
  dispatch sel line m = (line, m) \/
  exists k, counter_line k line /\ governing_flag sel k = true /\
            dispatch sel line m = (reset_stats_line line (tag k), true).
Proof.
  unfold dispatch.
  repeat match goal with
  | |- context [if ?f sel && startswith line ?p then _ else _] =>
      destruct (f sel && startswith line p) eqn:?
  end; auto; right;
  match goal with
  | H : _ && startswith line (py ?t) = true |- _ =>
      apply andb_true_iff in H as [? ?]
  end.
  - by exists DAYUP.
  - by exists DAYDN.
  - by exists WKUP.
  - by exists WKDN.
  - by exists MONTHUP.
  - by exists MONTHDN.
  - by exists ALLUP.
  - by exists ALLDN.
Qed.

Lemma dispatch_fst sel line m m' :
  fst (dispatch sel line m) = fst (dispatch sel line m').
Proof.
  destruct (dispatch_cases sel line m) as [E|(k & Hk & Hf & _)].
  - destruct (dispatch_cases sel line m') as [E'|(k & Hk & Hf & _)].
    + by rewrite E, E'.
    + by rewrite !(dispatch_counter_line _ _ _ _ Hk), Hf.
  - by rewrite !(dispatch_counter_line _ _ _ _ Hk), Hf.
Qed.

(** If the chain leaves [modified] unset, it left the line as it was. *)
Lemma dispatch_unmodified sel line m :
  snd (dispatch sel line m) = false ->
  dispatch sel line m = (line, false) /\ m = false.
Proof.
  destruct (dispatch_cases sel line m) as [E|(k & _ & _ & E)];
    rewrite E; simpl; [by intros ->|done].
Qed.

Lemma dispatch_no_reset line m : dispatch no_reset line m = (line, m).
Proof. reflexivity. Qed.
End Dispatch.

(** ** The loop *)

Section Loop.
Implicit Types (sel : selector) (st : loop_state) (line : str)
  (lines : list str) (i : nat).

(** The section toggle moves on the markers only. *)
Lemma loop_body_in_section sel st line :
  in_section (loop_body sel st line)
  = if contains line (py "[SECTION]") then true
    else if contains line (py "[ENDSECTION]") then false
    else in_section st.
Proof.
  unfold loop_body.
  destruct (contains line (py "[SECTION]")); [done|].
  destruct (contains line (py "[ENDSECTION]")); [done|].
  destruct (in_section st) eqn:E; [|done].
  by destruct (dispatch sel line (modified st)).
Qed.

(** Every iteration appends exactly one line. *)
Lemma loop_body_new_lines sel st line :
  new_lines (loop_body sel st line)
  = new_lines st ++ [emit sel (in_section st) line].
Proof.
  unfold loop_body, emit, is_marker.
  destruct (contains line (py "[SECTION]")); [done|].
  destruct (contains line (py "[ENDSECTION]")); [done|].
  destruct (in_section st); [|done]. simpl.
  rewrite (dispatch_fst sel line false (modified st)).
  by destruct (dispatch sel line (modified st)).
Qed.

(** [modified] is never cleared, and where it stays unset the line was
    appended as it was. *)
Lemma loop_body_unmodified sel st line :
  modified (loop_body sel st line) = false ->
  modified st = false /\ emit sel (in_section st) line = line.
Proof.
  unfold loop_body, emit, is_marker.
  destruct (contains line (py "[SECTION]")); [done|].
  destruct (contains line (py "[ENDSECTION]")); [done|].
  destruct (in_section st); [|done]. simpl.
  rewrite (dispatch_fst sel line false (modified st)).
  destruct (dispatch sel line (modified st)) as [l m] eqn:E. simpl.
  intros ->. destruct (dispatch_unmodified sel line (modified st)) as [E' ?].
  { by rewrite E. }
  rewrite E in E'. by injection E' as ->.
Qed.

Lemma scan_nil sel : scan sel [] = loop_init.
Proof. reflexivity. Qed.

Lemma scan_snoc sel lines line :
  scan sel (lines ++ [line]) = loop_body sel (scan sel lines) line.
Proof. unfold scan, scan_from. by rewrite fold_left_app. Qed.

Lemma scan_in_section sel sel' lines :
  in_section (scan sel lines) = in_section (scan sel' lines).
Proof.
  induction lines as [|line lines IH] using rev_ind; [done|].
  by rewrite !scan_snoc, !loop_body_in_section, IH.
Qed.

Lemma scan_length sel lines :
  length (new_lines (scan sel lines)) = length lines.
Proof.
  induction lines as [|line lines IH] using rev_ind; [done|].
  rewrite scan_snoc, loop_body_new_lines, !length_app, IH. done.
Qed.

(** The [i]-th line appended comes from the [i]-th line read and the
    toggle at that point. *)
Lemma scan_lookup sel lines i :
  new_lines (scan sel lines) !! i
  = emit sel (in_section_before sel lines i) <$> lines !! i.
Proof.
  unfold in_section_before. revert i.
  induction lines as [|line lines IH] using rev_ind; intros i; [done|].
  rewrite scan_snoc, loop_body_new_lines.
  destruct (decide (i < length lines)%nat) as [Hi|Hi].
  - rewrite lookup_app_l by (by rewrite scan_length).
    rewrite (lookup_app_l lines) by done.
    rewrite take_app_le by lia. apply IH.
  - destruct (decide (i = length lines)) as [->|Hne].
    + rewrite take_app_length.
      rewrite <- (scan_length sel lines) at 1.
      rewrite list_lookup_middle by done.
      rewrite list_lookup_middle by done. done.
    + rewrite !lookup_ge_None_2; [done| |].
      * rewrite length_app. simpl. lia.
      * rewrite length_app, scan_length. simpl. lia.
Qed.

Lemma scan_unmodified sel lines :
  modified (scan sel lines) = false -> new_lines (scan sel lines) = lines.
Proof.
  induction lines as [|line lines IH] using rev_ind; [done|].
  rewrite scan_snoc, loop_body_new_lines.
  intros [Hm He]%loop_body_unmodified. by rewrite He, IH.
Qed.

(** With no flag set the loop copies its input. *)
Lemma scan_no_reset lines :
  new_lines (scan no_reset lines) = lines /\
  modified (scan no_reset lines) = false.
Proof.
  induction lines as [|line lines [IH1 IH2]] using rev_ind; [done|].
  rewrite scan_snoc. split.
  - rewrite loop_body_new_lines, IH1. f_equal. f_equal.
    unfold emit. rewrite dispatch_no_reset. simpl.
    by destruct (is_marker line), (in_section (scan no_reset lines)).
  - unfold loop_body. rewrite dispatch_no_reset, IH2.
    by repeat case_match.
Qed.
End Loop.

(** ** The line resetter *)

Example reset_wellformed :
  reset_stats_line (ln "DAYUP 5 102400 3600") (py "DAYUP") = ln "DAYUP 0 0 0".
Proof. reflexivity. Qed.

Example reset_malformed :
  reset_stats_line (ln "DAYUP 5") (py "DAYUP") = ln "DAYUP 5".
Proof. reflexivity. Qed.

Example reset_extra_fields :
  reset_stats_line (ln "  WKUP 1   2 3 4 ") (py "WKUP") = ln "WKUP 0 0 0".
Proof. reflexivity. Qed.

Example reset_other_tag :
  reset_stats_line (ln "DAYUP 5 102400 3600") (py "DAYDN")
  = ln "DAYUP 5 102400 3600".
Proof. reflexivity. Qed.

(** C3. For every line and every tag (the eight prefixes among them), the
    line resetter returns the first whitespace-delimited token of the line
    followed by " 0 0 0" and a line feed when the line contains the tag as
    a substring and splits on whitespace into four or more tokens, whatever
    fields came after the first; in every other case, a line of fewer than
    four tokens included, it returns the line as it is. *)
Theorem reset_stats_line_spec (line reset_type : str) :
  reset_stats_line line reset_type
  = if contains line reset_type && (4 <=? length (split line))%nat
    then first_token line ++ py " 0 0 0" ++ [LF]
    else line.
Proof.
  unfold reset_stats_line.
  destruct (contains line reset_type); [|done].
  destruct (split line) as [|p0 ps] eqn:E; [done|].
  rewrite (split_first_token _ _ _ E).
  by destruct (4 <=? length (p0 :: ps))%nat.
Qed.

(** ** The record processor on line sequences *)

Example process_example3 :
  process_lines day_only example3
  = ([ln "[SECTION]"; ln "DAYUP 0 0 0"; ln "[ENDSECTION]"; ln "DAYUP 1 2 3"],
     true).
Proof. reflexivity. Qed.

Example process_example4 :
  process_lines week_only [ln "[SECTION]"; ln "DAYUP 5 1 1"; ln "DAYDN 1 1 1"]
  = ([ln "[SECTION]"; ln "DAYUP 5 1 1"; ln "DAYDN 1 1 1"], false).
Proof. reflexivity. Qed.

(** C4. For every record, every selector and every line that the loop
    reaches with its section toggle unset, the line is emitted as it is,
    whatever its prefix. *)
Theorem outside_section_unchanged (sel : selector) (lines : list str)
    (i : nat) (line : str) :
  lines !! i = Some line ->
  in_section_before sel lines i = false ->
  fst (process_lines sel lines) !! i = Some line.
Proof.
  intros Hi Hs. unfold process_lines. simpl.
  rewrite scan_lookup, Hi, Hs. simpl. f_equal.
  unfold emit. by destruct (is_marker line).
Qed.

Lemma outside_section_unchanged_witness :
  example3 !! 3%nat = Some (ln "DAYUP 1 2 3") /\
  in_section_before day_only example3 3 = false /\
  fst (process_lines day_only example3) !! 3%nat = Some (ln "DAYUP 1 2 3").
Proof.
  split; [reflexivity|]. split; [reflexivity|].
  apply (outside_section_unchanged day_only example3 3); reflexivity.
Defined.

(** C5. For a counter line inside a section (the toggle is set when the
    loop reaches it and the line is no marker): if the flag governing its
    prefix is unset the line is emitted as it is; if the flag is set and
    the line has four or more tokens, the tag followed by " 0 0 0" and a
    line feed is emitted; and the flags of the other prefixes make no
    difference to what is emitted. *)
Theorem counter_line_selectivity (sel : selector) (lines : list str)
    (i : nat) (line : str) (k : counter) :
  lines !! i = Some line ->
  in_section_before sel lines i = true ->
  is_marker line = false ->
  counter_line k line ->
  (governing_flag sel k = false ->
   fst (process_lines sel lines) !! i = Some line) /\
  (governing_flag sel k = true -> (4 <= length (split line))%nat ->
   fst (process_lines sel lines) !! i = Some (tag k ++ py " 0 0 0" ++ [LF])) /\
  (forall sel', governing_flag sel' k = governing_flag sel k ->
   fst (process_lines sel' lines) !! i = fst (process_lines sel lines) !! i).
Proof.
  intros Hi Hs Hm Hk. unfold process_lines. simpl.
  assert (Hemit : forall s, new_lines (scan s lines) !! i
      = Some (if governing_flag s k then reset_stats_line line (tag k)
              else line)).
  { intros s. rewrite scan_lookup, Hi. simpl. f_equal.
    unfold in_section_before in *. rewrite (scan_in_section s sel), Hs.
    unfold emit. rewrite Hm, (dispatch_counter_line _ _ _ _ Hk).
    by destruct (governing_flag s k). }
  split; [|split].
  - intros Hf. by rewrite Hemit, Hf.
  - intros Hf Hlen. rewrite Hemit, Hf, (reset_counter_line _ _ Hk).
    by apply Nat.leb_le in Hlen as ->.
  - intros sel' Hf. by rewrite !Hemit, Hf.
Qed.

Lemma counter_line_selectivity_witness :
  fst (process_lines week_only example3) !! 1%nat = Some (ln "DAYUP 1 2 3") /\
  fst (process_lines day_only example3) !! 1%nat = Some (ln "DAYUP 0 0 0") /\
  fst (process_lines (Selector true true true true) example3) !! 1%nat
  = fst (process_lines day_only example3) !! 1%nat.
Proof.
  split; [|split].
  - apply (counter_line_selectivity week_only example3 1
             (ln "DAYUP 1 2 3") DAYUP); reflexivity.
  - apply (counter_line_selectivity day_only example3 1
             (ln "DAYUP 1 2 3") DAYUP); reflexivity.
  - apply (counter_line_selectivity day_only example3 1
             (ln "DAYUP 1 2 3") DAYUP); reflexivity.
Defined.

(** C6. For every record and selector, the lines emitted are as many as
    the lines read, and the [i]-th emitted line comes from the [i]-th line
    read: it is that line, or the line resetter's result on it. *)
Theorem one_line_out_per_line_in (sel : selector) (lines : list str) :
  length (fst (process_lines sel lines)) = length lines /\
  forall i line, lines !! i = Some line ->
    fst (process_lines sel lines) !! i
    = Some (emit sel (in_section_before sel lines i) line) /\
    (emit sel (in_section_before sel lines i) line = line \/
     exists k, counter_line k line /\
       emit sel (in_section_before sel lines i) line
       = reset_stats_line line (tag k)).
Proof.
  unfold process_lines. simpl. split; [apply scan_length|].
  intros i line Hi. split; [by rewrite scan_lookup, Hi|].
  unfold emit. destruct (is_marker line); [by left|].
  destruct (in_section_before sel lines i); [|by left].
  destruct (dispatch_cases sel line false) as [E|(k & Hk & _ & E)];
    rewrite E; simpl; [by left|right; eauto].
Qed.

Lemma one_line_out_per_line_in_witness :
  length (fst (process_lines day_only example3)) = 4%nat /\
  fst (process_lines day_only example3) !! 1%nat
  = Some (emit day_only (in_section_before day_only example3 1)
            (ln "DAYUP 1 2 3")).
Proof.
  destruct (one_line_out_per_line_in day_only example3) as [Hlen Hnth].
  split; [exact Hlen|].
  apply (Hnth 1%nat (ln "DAYUP 1 2 3")). reflexivity.
Defined.

(** C9. With all four flags unset the record processor is the identity
    on every record: it emits the lines as they are and reports the record
    as not modified; on a file it neither writes nor returns true. *)
Theorem no_reset_identity (lines : list str) :
  process_lines no_reset lines = (lines, false) /\
  forall w userfile,
    fs (fst (process_userfile w userfile no_reset)) = fs w /\
    snd (process_userfile w userfile no_reset) = false.
Proof.
  split.
  - unfold process_lines. by destruct (scan_no_reset lines) as [-> ->].
  - intros w userfile. unfold process_userfile.
    destruct (readlines w userfile) as [e|ls]; [done|].
    by destruct (scan_no_reset ls) as [_ ->].
Qed.

(** C10. A line that contains both "[SECTION]" and "[ENDSECTION]" is taken
    as a section start: the first test of the loop body wins, the toggle
    is set, and the line is emitted as it is; this holds for the line
    wherever it stands in a record. *)
Theorem section_test_comes_first (sel : selector) (line : str) :
  contains line (py "[SECTION]") = true ->
  contains line (py "[ENDSECTION]") = true ->
  (forall st, loop_body sel st line
     = {| modified := modified st;
          new_lines := new_lines st ++ [line];
          in_section := true |}) /\
  (forall before after,
     in_section_before sel (before ++ line :: after) (S (length before))
     = true /\
     fst (process_lines sel (before ++ line :: after)) !! length before
     = Some line).
Proof.
  intros Hs _. split.
  - intros st. unfold loop_body. by rewrite Hs.
  - intros before after. split.
    + unfold in_section_before.
      change (before ++ line :: after) with (before ++ [line] ++ after).
      rewrite app_assoc, take_app_length'
        by (rewrite length_app; simpl; lia).
      rewrite scan_snoc, loop_body_in_section. by rewrite Hs.
    + unfold process_lines. simpl.
      rewrite scan_lookup, list_lookup_middle by done. simpl.
      unfold emit, is_marker. by rewrite Hs.
Qed.

Lemma section_test_comes_first_witness :
  contains (ln "[ENDSECTION] [SECTION]") (py "[SECTION]") = true /\
  contains (ln "[ENDSECTION] [SECTION]") (py "[ENDSECTION]") = true /\
  loop_body day_only loop_init (ln "[ENDSECTION] [SECTION]")
  = {| modified := false;
       new_lines := [ln "[ENDSECTION] [SECTION]"];
       in_section := true |}.
Proof.
  split; [reflexivity|]. split; [reflexivity|].
  destruct (section_test_comes_first day_only (ln "[ENDSECTION] [SECTION]"))
    as [Hbody _]; [reflexivity|reflexivity|].
  apply (Hbody loop_init).
Defined.

(** ** The selector *)

(** C7. When none of the four reset flags is given, the selector handed
    to the records has the day flag set, the week flag set exactly when
    today is the week-start day (Sunday, or Monday under [-e]), and the
    month flag set exactly when the day of the month is 1. *)
Theorem default_selector (args : arguments) (now : datetime) :
  arg_day args = false -> arg_week args = false ->
  arg_month args = false -> arg_alltime args = false ->
  let sel := fst (determine_resets args now) in
  reset_day sel = true /\
  (reset_week sel = true <->
   weekday now = if arg_monday args then Monday else Sunday) /\
  (reset_month sel = true <-> day now = 1).
Proof.
  intros Hd Hw Hm Ha. unfold determine_resets. rewrite Hd, Hw, Hm, Ha. simpl.
  destruct now as [wd d]. simpl.
  destruct (d =? 1) eqn:Ed.
  - apply N.eqb_eq in Ed as ->.
    destruct (arg_monday args), wd; simpl; by repeat split.
  - apply N.eqb_neq in Ed.
    destruct (arg_monday args), wd; simpl; by repeat split.
Qed.

Lemma default_selector_witness :
  let sel := fst (determine_resets (Args false false false false false)
                    (Datetime Sunday 1)) in
  reset_day sel = true /\
  (reset_week sel = true <-> Sunday = Sunday) /\
  (reset_month sel = true <-> 1 = 1).
Proof.
  apply (default_selector (Args false false false false false)
           (Datetime Sunday 1)); reflexivity.
Defined.

(** ** The modified flag *)

(** A record that comes out changed is reported as modified. *)
Lemma changed_is_modified (sel : selector) (lines : list str) :
  fst (process_lines sel lines) <> lines ->
  snd (process_lines sel lines) = true.
Proof.
  unfold process_lines. simpl. intros Hne.
  destruct (modified (scan sel lines)) eqn:E; [done|].
  by apply scan_unmodified in E.
Qed.

(** C1. The record processor is to report a record as modified exactly
    when some emitted line differs from the line read. The loop sets
    [modified] in every branch of the chain that fires, without the
    comparison with [original_line]: on a record whose day counter is
    already zero, and on one whose day counter is malformed, every line is
    emitted as it is and yet the record is reported as modified, and the
    file is written again with the same contents. *)
Theorem modified_without_change :
  process_lines day_only already_reset = (already_reset, true) /\
  process_lines day_only [ln "[SECTION]"; ln "DAYUP 5"]
  = ([ln "[SECTION]"; ln "DAYUP 5"], true) /\
  snd (process_userfile small_world alice day_only) = true /\
  data (fs (fst (process_userfile small_world alice day_only)) alice)
  = data (fs small_world alice).
Proof. repeat split. Qed.

(** ** A second pass *)

Section Idempotence.
Implicit Types (sel : selector) (line : str) (lines : list str).

Lemma reset_tag_line_not_marker k :
  is_marker (tag k ++ py " 0 0 0" ++ [LF]) = false.
Proof. by destruct k. Qed.

Lemma emit_reset_tag_line sel k :
  governing_flag sel k = true ->
  emit sel true (tag k ++ py " 0 0 0" ++ [LF]) = tag k ++ py " 0 0 0" ++ [LF].
Proof. destruct k, sel as [[] [] [] []]; done. Qed.

(** What is emitted is the line, or the zeroed line of its tag. *)
Lemma emit_cases sel ins line :
  emit sel ins line = line \/
  exists k, ins = true /\ is_marker line = false /\
    governing_flag sel k = true /\
    emit sel ins line = tag k ++ py " 0 0 0" ++ [LF].
Proof.
  unfold emit. destruct (is_marker line) eqn:Hm; [by left|].
  destruct ins; [|by left].
  destruct (dispatch_cases sel line false) as [E|(k & Hk & Hf & E)];
    rewrite E; simpl; [by left|].
  rewrite (reset_counter_line _ _ Hk).
  destruct (4 <=? length (split line))%nat; [|by left].
  right. by exists k.
Qed.

Lemma emit_contains sel ins line t :
  t = py "[SECTION]" \/ t = py "[ENDSECTION]" ->
  contains (emit sel ins line) t = contains line t.
Proof.
  intros Ht.
  destruct (emit_cases sel ins line) as [->|(k & _ & Hm & _ & ->)]; [done|].
  apply orb_false_iff in Hm as [Hm1 Hm2].
  destruct Ht as [-> | ->]; rewrite ?Hm1, ?Hm2; by destruct k.
Qed.

Lemma emit_idempotent sel ins line :
  emit sel ins (emit sel ins line) = emit sel ins line.
Proof.
  destruct (emit_cases sel ins line) as [E|(k & -> & _ & Hf & E)];
    rewrite E; [done|].
  by apply emit_reset_tag_line.
Qed.

Lemma scan_scan sel lines :
  new_lines (scan sel (new_lines (scan sel lines)))
  = new_lines (scan sel lines) /\
  in_section (scan sel (new_lines (scan sel lines)))
  = in_section (scan sel lines).
Proof.
  induction lines as [|line lines [IH1 IH2]] using rev_ind; [done|].
  rewrite scan_snoc, loop_body_new_lines, scan_snoc.
  rewrite loop_body_new_lines, !loop_body_in_section, IH1, IH2.
  rewrite emit_idempotent, !emit_contains by auto. done.
Qed.

(** The lines emitted by a second pass are those of the first. *)
Lemma process_lines_output_idempotent sel lines :
  fst (process_lines sel (fst (process_lines sel lines)))
  = fst (process_lines sel lines).
Proof. unfold process_lines. simpl. apply scan_scan. Qed.
End Idempotence.

(** C2. A second run of the record processor on the output of a first is
    to report the record as not modified and to emit the same lines. The
    lines are the same ([process_lines_output_idempotent]), but the second
    run reports the record as modified again: the chain fires on the
    zeroed line and sets the flag without comparing the lines. *)
Theorem second_pass_reports_modified :
  let first := fst (process_lines day_only example3) in
  first
  = [ln "[SECTION]"; ln "DAYUP 0 0 0"; ln "[ENDSECTION]"; ln "DAYUP 1 2 3"] /\
  process_lines day_only first = (first, true).
Proof. split; reflexivity. Qed.

(** ** Failures on a record *)

Example batch_with_failures :
  let '(w, n) := process_all small_world day_only [bob; carol; alice] 0 in
  n = 1 /\
  stdout w
  = [py "Error processing /glftpd/ftp-data/users/bob: [Errno 13] Permission denied";
     py "Error processing /glftpd/ftp-data/users/carol: [Errno 13] Permission denied"] /\
  data (fs w carol) = data (fs small_world carol).
Proof. repeat split. Qed.

(** A write that fails on a full disk: the file was emptied by [open] and
    is left with what had reached it; the record is reported and the batch
    goes on to the next record, which is reset and counted. *)
Example batch_on_full_disk :
  let '(w, n) := process_all full_disk_world day_only [alice; bob] 0 in
  n = 1 /\
  stdout w
  = [py "Error processing /glftpd/ftp-data/users/alice: [Errno 28] No space left on device"] /\
  data (fs w alice) = py "[SECT" /\
  data (fs w bob)
  = concat [ln "[SECTION]"; ln "DAYUP 0 0 0"; ln "[ENDSECTION]";
            ln "DAYUP 1 2 3"].
Proof. repeat split. Qed.

Section Failures.
Implicit Types (w : world) (sel : selector) (userfile path : str).

Lemma writelines_stdout w path lines :
  stdout (fst (writelines w path lines)) = stdout w.
Proof.
  unfold writelines. destruct (write_err (fs w path)); [done|].
  by destruct (write_fault (fs w path)) as [[n e]|].
Qed.


Lemma process_all_counter w sel userfiles n :
  snd (process_all w sel userfiles n) <= n + N.of_nat (length userfiles).
Proof.
  revert w n; induction userfiles as [|u rest IH]; intros w n.
  - simpl. lia.
  - cbn [process_all]. destruct (process_userfile w u sel) as [w' ok].
    specialize (IH w' (if ok then n + 1 else n)).
    cbn [length]. destruct ok; lia.
Qed.

Lemma process_userfile_prints w path sel :
  exists out, stdout (fst (process_userfile w path sel)) = stdout w ++ out.
Proof.
  unfold process_userfile.
  destruct (readlines w path) as [e|lines]; [simpl; eauto|].
  destruct (modified (scan sel lines)); [|exists []; by rewrite app_nil_r].
  pose proof (writelines_stdout w path (new_lines (scan sel lines))) as Hw.
  destruct (writelines w path (new_lines (scan sel lines))) as [w' [e|]];
    simpl in *; rewrite Hw; eauto using app_nil_r.
Qed.

End Failures.



(** * Further properties of the code *)

(** ** More on the line resetter *)

Section Tokens.
Implicit Types (s line t : str).

Lemma word_nonspace s : forallb (fun c => negb (isspace c)) (word s) = true.
Proof.
  induction s as [|c s IH]; [done|]. simpl.
  destruct (isspace c) eqn:Hc; [done|]. simpl. by rewrite Hc.
Qed.

(** A token of [split] is not empty and holds no whitespace. *)
Lemma split_head_token s p0 ps :
  split s = p0 :: ps ->
  p0 <> [] /\ forallb (fun c => negb (isspace c)) p0 = true.
Proof.
  induction s as [|c s IH]; [done|].
  destruct (isspace c) eqn:Hc.
  - simpl. rewrite Hc. exact IH.
  - destruct (split_word c s Hc) as [ws ->]. intros [= <- _].
    split; [done|]. simpl. by rewrite Hc, word_nonspace.
Qed.

Lemma split_zeroed p0 :
  p0 <> [] -> forallb (fun c => negb (isspace c)) p0 = true ->
  split (p0 ++ py " 0 0 0" ++ [LF]) = [p0; py "0"; py "0"; py "0"].
Proof.
  intros H1 H2.
  change (p0 ++ py " 0 0 0" ++ [LF]) with (p0 ++ SPACE :: (py "0 0 0" ++ [LF])).
  by rewrite split_token.
Qed.
End Tokens.

(** X1. Where the line resetter rewrites a line, the result has exactly
    four tokens: the first token of the line and three zeros. *)
Theorem reset_stats_line_tokens (line reset_type : str) :
  reset_stats_line line reset_type <> line ->
  split (reset_stats_line line reset_type)
  = [first_token line; py "0"; py "0"; py "0"].
Proof.
  unfold reset_stats_line.
  destruct (contains line reset_type); [|done].
  destruct (split line) as [|p0 ps] eqn:E; [done|].
  destruct (4 <=? length (p0 :: ps))%nat; [|done]. intros _.
  destruct (split_head_token _ _ _ E) as [H1 H2].
  rewrite <- (split_first_token _ _ _ E). by apply split_zeroed.
Qed.

Lemma reset_stats_line_tokens_witness :
  split (reset_stats_line (ln "  WKUP 1   2 3 4 ") (py "WKUP"))
  = [first_token (ln "  WKUP 1   2 3 4 "); py "0"; py "0"; py "0"].
Proof.
  apply (reset_stats_line_tokens (ln "  WKUP 1   2 3 4 ") (py "WKUP")).
  vm_compute. discriminate.
Defined.

(** X2. The line resetter is idempotent, for every line and every tag:
    resetting a line that was reset gives the same line. *)
Theorem reset_stats_line_idempotent (line reset_type : str) :
  reset_stats_line (reset_stats_line line reset_type) reset_type
  = reset_stats_line line reset_type.
Proof.
  assert (H : reset_stats_line line reset_type = line \/
    exists p0, p0 <> [] /\ forallb (fun c => negb (isspace c)) p0 = true /\
      reset_stats_line line reset_type = p0 ++ py " 0 0 0" ++ [LF]).
  { unfold reset_stats_line.
    destruct (contains line reset_type); [|by left].
    destruct (split line) as [|p0 ps] eqn:E; [by left|].
    destruct (4 <=? length (p0 :: ps))%nat; [|by left].
    destruct (split_head_token _ _ _ E) as [H1 H2]. right. by exists p0. }
  destruct H as [E|(p0 & H1 & H2 & E)]; rewrite E; [exact E|].
  unfold reset_stats_line. rewrite split_zeroed by done.
  by destruct (contains (p0 ++ py " 0 0 0" ++ [LF]) reset_type).
Qed.

(** ** More on the record processor *)

Section Chain.
Implicit Types (sel : selector) (st : loop_state) (line : str)
  (lines : list str) (k : counter).

(** A line starts with one of the eight prefixes, or no selector makes
    the chain touch it. *)
Lemma counter_line_or_inert line :
  (exists k, counter_line k line) \/
  (forall sel m, dispatch sel line m = (line, m)).
Proof.
  destruct (dispatch_cases (Selector true true true true) line false)
    as [E|(k & Hk & _)]; [right|left; eauto].
  intros sel m.
  destruct (dispatch_cases sel line m) as [E'|(k & Hk & _)]; [done|].
  rewrite (dispatch_counter_line _ _ _ _ Hk) in E. by destruct k.
Qed.

Lemma dispatch_fires sel line :
  snd (dispatch sel line false) = true <->
  exists k, counter_line k line /\ governing_flag sel k = true.
Proof.
  split.
  - destruct (dispatch_cases sel line false) as [->|(k & Hk & Hf & _)];
      [done|eauto].
  - intros (k & Hk & Hf). by rewrite (dispatch_counter_line _ _ _ _ Hk), Hf.
Qed.

Lemma dispatch_snd sel line m :
  snd (dispatch sel line m) = m || snd (dispatch sel line false).
Proof.
  destruct (counter_line_or_inert line) as [(k & Hk)|Hin].
  - rewrite !(dispatch_counter_line _ _ _ _ Hk).
    destruct (governing_flag sel k); simpl; by destruct m.
  - rewrite !Hin. simpl. by destruct m.
Qed.

Lemma loop_body_modified sel st line :
  modified (loop_body sel st line)
  = modified st
    || (negb (is_marker line) && in_section st
        && snd (dispatch sel line false)).
Proof.
  unfold loop_body, is_marker.
  destruct (contains line (py "[SECTION]")); simpl;
    [by rewrite orb_false_r|].
  destruct (contains line (py "[ENDSECTION]")); simpl;
    [by rewrite orb_false_r|].
  destruct (in_section st); simpl; [|by rewrite orb_false_r].
  rewrite <- dispatch_snd. by destruct (dispatch sel line (modified st)).
Qed.

Lemma in_section_before_app sel lines line i :
  (i <= length lines)%nat ->
  in_section_before sel (lines ++ [line]) i = in_section_before sel lines i.
Proof. intros Hi. unfold in_section_before. by rewrite take_app_le. Qed.

Lemma in_section_before_length sel lines :
  in_section_before sel lines (length lines) = in_section (scan sel lines).
Proof. unfold in_section_before. by rewrite firstn_all. Qed.

Lemma tag_line_counter_line k : counter_line k (tag k ++ py " 0 0 0" ++ [LF]).
Proof. by destruct k. Qed.

Lemma tag_line_tokens k :
  (4 <=? length (split (tag k ++ py " 0 0 0" ++ [LF])))%nat = true.
Proof. by destruct k. Qed.

Lemma emit_counter_line sel line k :
  is_marker line = false -> counter_line k line ->
  emit sel true line
  = if governing_flag sel k && (4 <=? length (split line))%nat
    then tag k ++ py " 0 0 0" ++ [LF] else line.
Proof.
  intros Hm Hk. unfold emit.
  rewrite Hm, (dispatch_counter_line _ _ _ _ Hk).
  destruct (governing_flag sel k); simpl; [|done].
  by rewrite (reset_counter_line _ _ Hk).
Qed.

Lemma governing_flag_or s1 s2 k :
  governing_flag (sel_or s1 s2) k
  = governing_flag s1 k || governing_flag s2 k.
Proof. by destruct k. Qed.

Lemma emit_compose s1 s2 ins line :
  emit s2 ins (emit s1 ins line) = emit (sel_or s1 s2) ins line.
Proof.
  destruct (is_marker line) eqn:Hm.
  { unfold emit. by rewrite Hm, Hm. }
  destruct ins.
  2:{ unfold emit. by rewrite Hm, Hm. }
  destruct (counter_line_or_inert line) as [(k & Hk)|Hin].
  - rewrite (emit_counter_line s1 _ _ Hm Hk).
    rewrite (emit_counter_line (sel_or s1 s2) _ _ Hm Hk), governing_flag_or.
    destruct (governing_flag s1 k), (4 <=? length (split line))%nat eqn:Hlen;
      cbn [andb orb].
    + rewrite (emit_counter_line s2 _ k (reset_tag_line_not_marker k)
                 (tag_line_counter_line k)).
      by destruct (governing_flag s2 k && _).
    + rewrite (emit_counter_line s2 _ _ Hm Hk), Hlen.
      by rewrite andb_false_r.
    + by rewrite (emit_counter_line s2 _ _ Hm Hk), Hlen.
    + by rewrite (emit_counter_line s2 _ _ Hm Hk), Hlen.
  - assert (He : forall s, emit s true line = line).
    { intros s. unfold emit. by rewrite Hm, Hin. }
    by rewrite !He.
Qed.

Lemma scan_compose s1 s2 lines :
  new_lines (scan s2 (new_lines (scan s1 lines)))
  = new_lines (scan (sel_or s1 s2) lines) /\
  in_section (scan s2 (new_lines (scan s1 lines)))
  = in_section (scan s1 lines).
Proof.
  induction lines as [|line lines [IH1 IH2]] using rev_ind; [done|].
  rewrite (scan_snoc s1), (scan_snoc (sel_or s1 s2)).
  rewrite !loop_body_new_lines, scan_snoc, loop_body_new_lines.
  rewrite !loop_body_in_section, IH1, IH2.
  rewrite !emit_contains by auto.
  rewrite emit_compose, (scan_in_section (sel_or s1 s2) s1). done.
Qed.

Lemma sel_or_comm s1 s2 : sel_or s1 s2 = sel_or s2 s1.
Proof. unfold sel_or. f_equal; apply orb_comm. Qed.
End Chain.

(** X3. A record reported as not modified comes out as it went in. *)
Theorem not_modified_is_identity (sel : selector) (lines : list str) :
  snd (process_lines sel lines) = false ->
  process_lines sel lines = (lines, false).
Proof.
  unfold process_lines. simpl. intros Hm.
  by rewrite Hm, (scan_unmodified _ _ Hm).
Qed.

Lemma not_modified_is_identity_witness :
  process_lines week_only example3 = (example3, false).
Proof. apply (not_modified_is_identity week_only example3). reflexivity. Defined.

(** X4. What the modified flag stands for in the code: a record is
    reported as modified exactly when some line, reached with the section
    toggle set and not a marker, starts with a prefix whose flag is set,
    whether or not the line is changed. *)
Theorem modified_iff_chain_fired (sel : selector) (lines : list str) :
  snd (process_lines sel lines) = true <->
  exists i line k,
    lines !! i = Some line /\ in_section_before sel lines i = true /\
    is_marker line = false /\ counter_line k line /\
    governing_flag sel k = true.
Proof.
  unfold process_lines. simpl.
  induction lines as [|x lines IH] using rev_ind.
  { split; [done|]. by intros (i & line & k & H & _). }
  rewrite scan_snoc, loop_body_modified, orb_true_iff, IH. split.
  - intros [(i & line & k & Hi & Hs & H)|H].
    + exists i, line, k. pose proof (lookup_lt_Some _ _ _ Hi).
      rewrite lookup_app_l, in_section_before_app by lia. eauto.
    + apply andb_true_iff in H as [H Hd]. apply andb_true_iff in H as [Hm Hs].
      apply negb_true_iff in Hm. apply dispatch_fires in Hd as (k & Hk & Hf).
      exists (length lines), x, k.
      rewrite list_lookup_middle, in_section_before_app by done.
      by rewrite in_section_before_length.
  - intros (i & line & k & Hi & Hs & Hm & Hk & Hf).
    destruct (decide (i < length lines)%nat) as [Hlt|Hge].
    + left. exists i, line, k.
      rewrite lookup_app_l in Hi by done.
      rewrite in_section_before_app in Hs by lia. eauto.
    + pose proof (lookup_lt_Some _ _ _ Hi) as Hlen.
      rewrite length_app in Hlen. simpl in Hlen.
      assert (i = length lines) as -> by lia.
      rewrite list_lookup_middle in Hi by done. injection Hi as ->.
      rewrite in_section_before_app, in_section_before_length in Hs by done.
      right. rewrite Hm, Hs. simpl. apply dispatch_fires. eauto.
Qed.

Lemma modified_iff_chain_fired_witness :
  snd (process_lines day_only already_reset) = true.
Proof.
  apply (modified_iff_chain_fired day_only already_reset).
  exists 1%nat, (ln "DAYUP 0 0 0"), DAYUP. by repeat split.
Defined.

(** X5. The record processor changes a line only under all of these
    conditions: the line is reached with the section toggle set, it is not
    a marker, it starts with one of the eight prefixes and a space, the
    flag of that prefix is set, and it has four or more tokens; the line
    then becomes the prefix followed by three zeros. *)
Theorem changed_line_conditions (sel : selector) (lines : list str)
    (i : nat) (line out : str) :
  lines !! i = Some line ->
  fst (process_lines sel lines) !! i = Some out ->
  out <> line ->
  in_section_before sel lines i = true /\ is_marker line = false /\
  exists k, counter_line k line /\ governing_flag sel k = true /\
    (4 <= length (split line))%nat /\
    out = tag k ++ py " 0 0 0" ++ [LF].
Proof.
  unfold process_lines. simpl. rewrite scan_lookup. intros -> [= <-].
  unfold emit. destruct (is_marker line) eqn:Hm; [done|].
  destruct (in_section_before sel lines i); [|done].
  destruct (dispatch_cases sel line false) as [->|(k & Hk & Hf & ->)];
    [done|]. simpl.
  rewrite (reset_counter_line _ _ Hk).
  destruct (4 <=? length (split line))%nat eqn:Hlen; [|done].
  intros _. repeat split. exists k. by apply Nat.leb_le in Hlen.
Qed.

Lemma changed_line_conditions_witness :
  in_section_before day_only example3 1 = true /\
  is_marker (ln "DAYUP 1 2 3") = false /\
  exists k, counter_line k (ln "DAYUP 1 2 3") /\
    governing_flag day_only k = true /\
    (4 <= length (split (ln "DAYUP 1 2 3")))%nat /\
    ln "DAYUP 0 0 0" = tag k ++ py " 0 0 0" ++ [LF].
Proof.
  apply (changed_line_conditions day_only example3 1
           (ln "DAYUP 1 2 3") (ln "DAYUP 0 0 0")).
  - reflexivity.
  - reflexivity.
  - vm_compute. discriminate.
Defined.

(** X6. A record in which no line contains "[SECTION]" is never changed
    and never reported as modified, whatever the selector and whatever
    counter lines it holds. *)
Theorem no_section_no_change (sel : selector) (lines : list str) :
  Forall (fun line => contains line (py "[SECTION]") = false) lines ->
  process_lines sel lines = (lines, false).
Proof.
  unfold process_lines. intros H.
  enough (Hst : new_lines (scan sel lines) = lines /\
                modified (scan sel lines) = false /\
                in_section (scan sel lines) = false).
  { by destruct Hst as (-> & -> & _). }
  induction lines as [|x lines IH] using rev_ind; [done|].
  apply Forall_app in H as [H Hx]. apply Forall_inv in Hx.
  destruct (IH H) as (IH1 & IH2 & IH3).
  rewrite scan_snoc, loop_body_new_lines, loop_body_modified.
  rewrite loop_body_in_section, IH1, IH2, IH3, Hx.
  rewrite andb_false_r. simpl. unfold emit.
  by destruct (is_marker x), (contains x (py "[ENDSECTION]")).
Qed.

Lemma no_section_no_change_witness :
  process_lines (Selector true true true true)
    [ln "DAYUP 1 2 3"; ln "[ENDSECTION]"; ln "ALLDN 4 5 6"]
  = ([ln "DAYUP 1 2 3"; ln "[ENDSECTION]"; ln "ALLDN 4 5 6"], false).
Proof.
  apply (no_section_no_change (Selector true true true true)).
  repeat constructor.
Defined.

(** X7. The section toggle follows the last marker line alone: after a
    marker line and any number of lines that are no markers, the toggle is
    set exactly when that marker line contains "[SECTION]", whatever came
    before it; so every later "[SECTION]" opens a section again. *)
Theorem toggle_follows_last_marker (sel : selector)
    (before after : list str) (marker : str) :
  is_marker marker = true ->
  Forall (fun line => is_marker line = false) after ->
  in_section (scan sel (before ++ marker :: after))
  = contains marker (py "[SECTION]").
Proof.
  intros Hm Hafter.
  induction after as [|x after IH] using rev_ind.
  - rewrite scan_snoc, loop_body_in_section.
    unfold is_marker in Hm.
    destruct (contains marker (py "[SECTION]")); [done|].
    simpl in Hm. by rewrite Hm.
  - apply Forall_app in Hafter as [Hafter Hx].
    apply Forall_inv in Hx.
    rewrite app_comm_cons, app_assoc, scan_snoc, loop_body_in_section.
    apply orb_false_iff in Hx as [-> ->]. by apply IH.
Qed.

Lemma toggle_follows_last_marker_witness :
  in_section (scan day_only
    ([ln "[SECTION]"; ln "DAYUP 1 2 3"; ln "[ENDSECTION]"]
     ++ ln "[SECTION]" :: [ln "DAYUP 1 2 3"]))
  = contains (ln "[SECTION]") (py "[SECTION]").
Proof.
  apply (toggle_follows_last_marker day_only
           [ln "[SECTION]"; ln "DAYUP 1 2 3"; ln "[ENDSECTION]"]
           [ln "DAYUP 1 2 3"] (ln "[SECTION]")).
  - reflexivity.
  - repeat constructor.
Defined.

(** X8. Passes compose: the lines emitted by a pass with one selector
    over the lines emitted by a pass with another are those of a single
    pass with the flags of both; hence two passes give the same lines in
    either order, and a pass repeated with the same selector gives the
    lines of the first. *)
Theorem passes_compose (s1 s2 : selector) (lines : list str) :
  fst (process_lines s2 (fst (process_lines s1 lines)))
  = fst (process_lines (sel_or s1 s2) lines) /\
  fst (process_lines s2 (fst (process_lines s1 lines)))
  = fst (process_lines s1 (fst (process_lines s2 lines))) /\
  fst (process_lines s1 (fst (process_lines s1 lines)))
  = fst (process_lines s1 lines).
Proof.
  unfold process_lines. simpl.
  destruct (scan_compose s1 s2 lines) as [H12 _].
  destruct (scan_compose s2 s1 lines) as [H21 _].
  split; [exact H12|]. split; [by rewrite H12, H21, sel_or_comm|].
  apply scan_scan.
Qed.

(** ** Reading back what was written *)

Section Lines.
Implicit Types (s l rest : str) (ls : list str) (sel : selector).

Lemma universal_newlines_no_CR s : no_CR (universal_newlines s) = true.
Proof.
  remember (length s) as n eqn:Hn. revert s Hn.
  induction n as [n IH] using lt_wf_ind. intros s ->.
  destruct s as [|c s]; [done|]. simpl.
  destruct (c =? CR) eqn:Hc.
  - simpl. destruct s as [|c' s]; [done|].
    destruct (c' =? LF).
    + apply (IH (length s)); simpl; [lia|done].
    + apply (IH (length (c' :: s))); simpl; [lia|done].
  - simpl. rewrite Hc. simpl.
    apply (IH (length s)); simpl; [lia|done].
Qed.

Lemma universal_newlines_id s : no_CR s = true -> universal_newlines s = s.
Proof.
  induction s as [|c s IH]; [done|]. simpl.
  intros [Hc Hs]%andb_true_iff. apply negb_true_iff in Hc.
  by rewrite Hc, IH.
Qed.

Lemma tidy_line_nonempty l : tidy_line l = true -> l <> [].
Proof. by destruct l. Qed.

Lemma tidy_lines_head l ls : tidy_lines (l :: ls) = true -> tidy_line l = true.
Proof. simpl. by intros [? _]%andb_true_iff. Qed.

Lemma keepends_tidy s : no_CR s = true -> tidy_lines (keepends s) = true.
Proof.
  induction s as [|c s IH]; [done|]. simpl.
  intros [Hc Hs]%andb_true_iff. specialize (IH Hs).
  destruct (c =? LF) eqn:Hlf.
  - simpl. rewrite Hc, Hlf, IH. by destruct (keepends s).
  - destruct (keepends s) as [|l ls]; simpl; [by rewrite Hc|].
    simpl in IH. apply andb_true_iff in IH as [Hl Hls].
    rewrite Hc, Hlf.
    destruct l as [|c' l]; [done|]. by rewrite Hl.
Qed.

Lemma keepends_app_line l rest :
  tidy_line l = true ->
  keepends (l ++ rest)
  = if ends_LF l then l :: keepends rest
    else match keepends rest with
         | [] => [l]
         | r :: rs => (l ++ r) :: rs
         end.
Proof.
  induction l as [|c l IH]; [done|].
  destruct l as [|c' l].
  - simpl. intros _. destruct (c =? LF); [done|].
    by destruct (keepends rest).
  - intros H. simpl in H.
    apply andb_true_iff in H as [_ H]. apply andb_true_iff in H as [Hlf H].
    apply negb_true_iff in Hlf. specialize (IH H).
    change ((c :: c' :: l) ++ rest) with (c :: (c' :: l) ++ rest).
    change (ends_LF (c :: c' :: l)) with (ends_LF (c' :: l)).
    cbn [keepends]. rewrite Hlf.
    change (c' :: l ++ rest) with ((c' :: l) ++ rest). rewrite IH.
    destruct (ends_LF (c' :: l)); [done|]. by destruct (keepends rest).
Qed.

Lemma keepends_concat ls :
  tidy_lines ls = true -> keepends (concat ls) = ls.
Proof.
  induction ls as [|l ls IH]; [done|]. simpl.
  intros [Hl Hls]%andb_true_iff.
  rewrite (keepends_app_line _ _ Hl).
  destruct ls as [|l' ls].
  - simpl. by destruct (ends_LF l).
  - apply andb_true_iff in Hls as [-> Hls]. by rewrite IH.
Qed.

Lemma tidy_line_no_CR l : tidy_line l = true -> no_CR l = true.
Proof.
  induction l as [|c l IH]; [done|]. simpl.
  intros [Hc H]%andb_true_iff. rewrite Hc. simpl.
  destruct l as [|c' l]; [done|].
  apply andb_true_iff in H as [_ H]. by apply IH.
Qed.

Lemma no_CR_app s rest : no_CR (s ++ rest) = no_CR s && no_CR rest.
Proof. apply forallb_app. Qed.

Lemma concat_no_CR ls : tidy_lines ls = true -> no_CR (concat ls) = true.
Proof.
  induction ls as [|l ls IH]; [done|]. simpl.
  intros [Hl Hls]%andb_true_iff.
  rewrite no_CR_app, (tidy_line_no_CR _ Hl). simpl.
  destruct ls as [|l' ls]; [done|].
  apply andb_true_iff in Hls as [_ Hls]. by apply IH.
Qed.

(** The loop, line by line. *)
Lemma scan_from_emit_all sel st ls :
  new_lines (scan_from sel st ls)
  = new_lines st ++ emit_all sel (in_section st) ls.
Proof.
  unfold scan_from.
  revert st; induction ls as [|l ls IH]; intros st; simpl.
  - by rewrite app_nil_r.
  - rewrite IH, loop_body_new_lines, loop_body_in_section, <- app_assoc.
    done.
Qed.

Lemma scan_emit_all sel ls :
  new_lines (scan sel ls) = emit_all sel false ls.
Proof. unfold scan. by rewrite scan_from_emit_all. Qed.

Lemma emit_tidy sel ins l :
  tidy_line l = true -> tidy_line (emit sel ins l) = true.
Proof.
  intros H.
  destruct (emit_cases sel ins l) as [->|(k & _ & _ & _ & ->)]; [done|].
  by destruct k.
Qed.

Lemma emit_ends_LF sel ins l :
  ends_LF l = true -> ends_LF (emit sel ins l) = true.
Proof.
  intros H.
  destruct (emit_cases sel ins l) as [->|(k & _ & _ & _ & ->)]; [done|].
  by destruct k.
Qed.

Lemma emit_all_tidy sel ins ls :
  tidy_lines ls = true -> tidy_lines (emit_all sel ins ls) = true.
Proof.
  revert ins; induction ls as [|l ls IH]; intros ins; [done|]. simpl.
  intros [Hl Hls]%andb_true_iff. rewrite (emit_tidy _ _ _ Hl). simpl.
  destruct ls as [|l' ls]; [done|].
  apply andb_true_iff in Hls as [Hlf Hls].
  rewrite (emit_ends_LF _ _ _ Hlf). simpl.
  exact (IH (toggle ins l) Hls).
Qed.

Lemma readlines_tidy w path ls :
  readlines w path = inr ls -> tidy_lines ls = true.
Proof.
  unfold readlines. destruct (read_err (fs w path)); [done|].
  intros [= <-]. apply keepends_tidy, universal_newlines_no_CR.
Qed.
End Lines.

(** ** The record processor on files *)

Section Files.
Implicit Types (w : world) (userfile path : str) (sel : selector).

(** The five ways a call can go. *)
Lemma process_userfile_cases w userfile sel :
  (exists e, readlines w userfile = inl e /\
     process_userfile w userfile sel = handler w userfile e) \/
  (exists lines, readlines w userfile = inr lines /\
     modified (scan sel lines) = false /\
     process_userfile w userfile sel = (w, false)) \/
  (exists lines e, readlines w userfile = inr lines /\
     modified (scan sel lines) = true /\
     write_err (fs w userfile) = Some e /\
     process_userfile w userfile sel
     = handler (note_open w userfile) userfile e) \/
  (exists lines n e, readlines w userfile = inr lines /\
     modified (scan sel lines) = true /\
     write_err (fs w userfile) = None /\
     write_fault (fs w userfile) = Some (n, e) /\
     process_userfile w userfile sel
     = handler (store w userfile
                  (take n (concat (new_lines (scan sel lines)))))
         userfile e) \/
  (exists lines, readlines w userfile = inr lines /\
     modified (scan sel lines) = true /\
     write_err (fs w userfile) = None /\
     write_fault (fs w userfile) = None /\
     process_userfile w userfile sel
     = (store w userfile (concat (new_lines (scan sel lines))), true)).
Proof.
  unfold process_userfile, writelines.
  destruct (readlines w userfile) as [e|lines] eqn:Hr; [left; eauto|].
  right. destruct (modified (scan sel lines)) eqn:Hm; [|left; eauto].
  right. destruct (write_err (fs w userfile)) as [e|] eqn:Hw.
  { left. by exists lines, e. }
  right. destruct (write_fault (fs w userfile)) as [[n e]|] eqn:Hf.
  - left. by exists lines, n, e.
  - right. by exists lines.
Qed.

Lemma process_userfile_frame w userfile sel path :
  path <> userfile ->
  fs (fst (process_userfile w userfile sel)) path = fs w path.
Proof.
  intros Hne.
  destruct (process_userfile_cases w userfile sel)
    as [(e & _ & ->)|[(ls & _ & _ & ->)|[(ls & e & _ & _ & _ & ->)
       |[(ls & n & e & _ & _ & _ & _ & ->)|(ls & _ & _ & _ & _ & ->)]]]];
    try done; simpl; by rewrite fn_lookup_insert_ne.
Qed.

Lemma snoc_neq {A} (l : list A) (x : A) : l ++ [x] <> l.
Proof.
  intros H. apply (f_equal length) in H. rewrite length_app in H.
  simpl in H. lia.
Qed.

(** What a call passes to [open(path, 'w')]: nothing, or its userfile. *)
Lemma process_userfile_opened w userfile sel :
  (opened_w (fst (process_userfile w userfile sel)) = opened_w w /\
   fs (fst (process_userfile w userfile sel)) = fs w /\
   snd (process_userfile w userfile sel) = false) \/
  (opened_w (fst (process_userfile w userfile sel))
   = opened_w w ++ [userfile] /\
   exists lines, readlines w userfile = inr lines /\
                 modified (scan sel lines) = true).
Proof.
  destruct (process_userfile_cases w userfile sel)
    as [(e & _ & ->)|[(ls & _ & _ & ->)|[(ls & e & Hr & Hm & _ & ->)
       |[(ls & n & e & Hr & Hm & _ & _ & ->)|(ls & Hr & Hm & _ & _ & ->)]]]];
    [by left|by left|right; eauto..].
Qed.

(** After a complete write, the file reads back as the lines written. *)
Lemma written_reads_back w userfile lines out :
  readlines w userfile = inr lines ->
  tidy_lines out = true ->
  readlines (store w userfile (concat out)) userfile = inr out.
Proof.
  unfold readlines, store. simpl. rewrite fn_lookup_insert. simpl.
  destruct (read_err (fs w userfile)); [done|]. intros _ Hout.
  by rewrite (universal_newlines_id _ (concat_no_CR _ Hout)),
    keepends_concat.
Qed.

Lemma scan_tidy w userfile sel lines :
  readlines w userfile = inr lines ->
  tidy_lines (new_lines (scan sel lines)) = true.
Proof.
  intros Hr. rewrite scan_emit_all.
  apply emit_all_tidy. by eapply readlines_tidy.
Qed.
End Files.

(** X9. A call of the record processor passes at most one path to
    [open(path, 'w')], its own userfile, and only after the loop reported
    the record as modified; a call that opens nothing for writing changes
    no file and returns false; a call that returns true has printed
    nothing. *)
Theorem process_userfile_effects (w : world) (userfile : str)
    (sel : selector) :
  let r := process_userfile w userfile sel in
  (opened_w (fst r) = opened_w w \/
   opened_w (fst r) = opened_w w ++ [userfile]) /\
  (opened_w (fst r) = opened_w w ->
   fs (fst r) = fs w /\ snd r = false) /\
  (opened_w (fst r) <> opened_w w ->
   exists lines, readlines w userfile = inr lines /\
                 snd (process_lines sel lines) = true) /\
  (snd r = true -> stdout (fst r) = stdout w).
Proof.
  simpl.
  destruct (process_userfile_opened w userfile sel)
    as [(Ho & Hfs & Hr)|(Ho & lines & Hr & Hm)].
  - rewrite Ho, Hfs, Hr. by repeat split; auto.
  - rewrite Ho. split; [by right|]. split; [by intros ?%snoc_neq|].
    split; [intros _; by exists lines|].
    destruct (process_userfile_cases w userfile sel)
      as [(e & _ & ->)|[(ls & _ & _ & ->)|[(ls & e & _ & _ & _ & ->)
         |[(ls & n & e & _ & _ & _ & _ & ->)|(ls & _ & _ & _ & _ & ->)]]]];
      done.
Qed.

Lemma process_userfile_effects_witness :
  opened_w (fst (process_userfile full_disk_world alice day_only)) = [alice] /\
  (exists lines, readlines full_disk_world alice = inr lines /\
                 snd (process_lines day_only lines) = true) /\
  fs (fst (process_userfile small_world alice week_only)) = fs small_world /\
  stdout (fst (process_userfile small_world alice day_only))
  = stdout small_world.
Proof.
  split; [reflexivity|]. split; [|split].
  - apply (process_userfile_effects full_disk_world alice day_only).
    vm_compute. discriminate.
  - by apply (process_userfile_effects small_world alice week_only).
  - by apply (process_userfile_effects small_world alice day_only).
Defined.

(** X10. When the record processor returns true, the file holds the
    concatenation of the emitted lines, and reading it again gives exactly
    those lines. *)
Theorem written_file_reads_back (w w' : world) (userfile : str)
    (sel : selector) :
  process_userfile w userfile sel = (w', true) ->
  exists lines,
    readlines w userfile = inr lines /\
    data (fs w' userfile) = concat (fst (process_lines sel lines)) /\
    readlines w' userfile = inr (fst (process_lines sel lines)).
Proof.
  destruct (process_userfile_cases w userfile sel)
    as [(e & _ & ->)|[(ls & _ & _ & ->)|[(ls & e & _ & _ & _ & ->)
       |[(ls & n & e & _ & _ & _ & _ & ->)|(ls & Hr & _ & _ & _ & ->)]]]];
    try done.
  intros [= <-]. exists ls. split; [done|]. split.
  - simpl. by rewrite fn_lookup_insert.
  - apply (written_reads_back _ _ _ _ Hr), (scan_tidy _ _ _ _ Hr).
Qed.

Lemma written_file_reads_back_witness :
  exists lines,
    readlines small_world alice = inr lines /\
    data (fs (fst (process_userfile small_world alice day_only)) alice)
    = concat (fst (process_lines day_only lines)) /\
    readlines (fst (process_userfile small_world alice day_only)) alice
    = inr (fst (process_lines day_only lines)).
Proof.
  apply (written_file_reads_back small_world _ alice day_only).
  reflexivity.
Defined.

(** X11. A file written by the record processor holds no carriage
    return: read in text mode and written back, a file with CRLF or CR
    line ends comes out with LF line ends throughout. *)
Theorem written_file_no_CR (w w' : world) (userfile : str) (sel : selector) :
  process_userfile w userfile sel = (w', true) ->
  no_CR (data (fs w' userfile)) = true.
Proof.
  destruct (process_userfile_cases w userfile sel)
    as [(e & _ & ->)|[(ls & _ & _ & ->)|[(ls & e & _ & _ & _ & ->)
       |[(ls & n & e & _ & _ & _ & _ & ->)|(ls & Hr & _ & _ & _ & ->)]]]];
    try done.
  intros [= <-]. simpl. rewrite fn_lookup_insert. simpl.
  apply concat_no_CR, (scan_tidy _ _ _ _ Hr).
Qed.

(** X12. If neither of two calls of the record processor in a row, on the
    same file with the same selector, raises an exception (neither prints
    anything), the second call leaves every file as the first left it. *)
Theorem second_run_same_files (w : world) (userfile : str) (sel : selector) :
  let r1 := process_userfile w userfile sel in
  let r2 := process_userfile (fst r1) userfile sel in
  stdout (fst r2) = stdout w ->
  forall path, fs (fst r2) path = fs (fst r1) path.
Proof.
  simpl. intros Hout path.
  assert (Hprinted : forall w0 e,
    stdout (fst (process_userfile (fst (handler w0 userfile e)) userfile sel))
    = stdout w -> stdout w0 = stdout w -> False).
  { intros w0 e H1 H0.
    destruct (process_userfile_prints (fst (handler w0 userfile e))
                userfile sel) as [out Ho].
    rewrite Ho in H1. simpl in H1. rewrite H0, <- app_assoc in H1.
    apply (f_equal length) in H1. rewrite !length_app in H1.
    simpl in H1. lia. }
  destruct (process_userfile_cases w userfile sel)
    as [(e & Hr & E)|[(ls & Hr & Hm & E)|[(ls & e & Hr & Hm & Hw & E)
       |[(ls & n & e & Hr & Hm & Hw & Hf & E)|(ls & Hr & Hm & Hw & Hf & E)]]]];
    rewrite E in *.
  - by destruct (Hprinted _ _ Hout).
  - simpl. by rewrite E.
  - by destruct (Hprinted _ _ Hout).
  - by destruct (Hprinted _ _ Hout).
  - simpl in *.
    pose proof (written_reads_back _ _ _ _ Hr (scan_tidy _ _ sel _ Hr)) as Hr2.
    unfold process_userfile, writelines. rewrite Hr2.
    destruct (scan_scan sel ls) as [Hnl _]. rewrite Hnl.
    destruct (modified (scan sel (new_lines (scan sel ls)))); [|done].
    unfold store at 2 3 5 6. simpl. rewrite fn_lookup_insert. simpl.
    rewrite Hw, Hf. simpl.
    destruct (decide (path = userfile)) as [->|Hne].
    + by rewrite !fn_lookup_insert.
    + by rewrite !fn_lookup_insert_ne.
Qed.

Lemma second_run_same_files_witness :
  fs (fst (process_userfile
             (fst (process_userfile crlf_world alice day_only))
             alice day_only)) alice
  = fs (fst (process_userfile crlf_world alice day_only)) alice.
Proof.
  apply (second_run_same_files crlf_world alice day_only). reflexivity.
Defined.

Lemma written_file_no_CR_witness :
  process_userfile crlf_world alice day_only
  = (fst (process_userfile crlf_world alice day_only), true) /\
  data (fs (fst (process_userfile crlf_world alice day_only)) alice)
  = concat [ln "[SECTION]"; ln "DAYUP 0 0 0"; ln "GROUP staff"] /\
  no_CR (data (fs (fst (process_userfile crlf_world alice day_only)) alice))
  = true.
Proof.
  split; [reflexivity|]. split; [reflexivity|].
  apply (written_file_no_CR crlf_world _ alice day_only). reflexivity.
Defined.

(** ** The batch *)

Section Batch.
Implicit Types (w : world) (sel : selector) (userfiles : list str)
  (path : str) (n : N).

Lemma process_all_frame w sel userfiles n path :
  path ∉ userfiles ->
  fs (fst (process_all w sel userfiles n)) path = fs w path.
Proof.
  revert w n; induction userfiles as [|u rest IH]; intros w n Hp; [done|].
  apply not_elem_of_cons in Hp as [Hne Hp]. simpl.
  destruct (process_userfile w u sel) as [w' ok] eqn:E.
  rewrite IH by done.
  change w' with (fst (w', ok)). rewrite <- E.
  by apply process_userfile_frame.
Qed.

(** A call depends on the world through its own file alone. *)
Lemma process_userfile_local w1 w2 path sel :
  fs w1 path = fs w2 path ->
  fs (fst (process_userfile w1 path sel)) path
  = fs (fst (process_userfile w2 path sel)) path /\
  snd (process_userfile w1 path sel) = snd (process_userfile w2 path sel).
Proof.
  intros H. unfold process_userfile, readlines, writelines, store. rewrite H.
  destruct (read_err (fs w2 path)); [done|].
  destruct (modified (scan sel _)); [|done].
  destruct (write_err (fs w2 path)); [done|].
  destruct (write_fault (fs w2 path)) as [[k e]|];
    simpl; by rewrite !fn_lookup_insert.
Qed.

(** The paths the loop opens for writing are among its userfiles, in
    their order. *)
Lemma process_all_opened w sel userfiles n :
  exists l,
    opened_w (fst (process_all w sel userfiles n)) = opened_w w ++ l /\
    l `sublist_of` userfiles /\
    (l = [] -> fs (fst (process_all w sel userfiles n)) = fs w).
Proof.
  revert w n; induction userfiles as [|u rest IH]; intros w n.
  - exists []. simpl. by rewrite app_nil_r.
  - cbn [process_all].
    pose proof (process_userfile_opened w u sel) as Hu.
    destruct (process_userfile w u sel) as [w' ok]. simpl in Hu.
    destruct (IH w' (if ok then n + 1 else n)) as (l & Hl & Hsub & Hfs).
    rewrite Hl. destruct Hu as [(-> & Hw' & _)|(-> & _)].
    + exists l. split; [done|]. split; [by apply sublist_cons|].
      intros Hnil. by rewrite Hfs.
    + exists (u :: l). rewrite <- app_assoc.
      split; [done|]. split; [by apply sublist_skip|done].
Qed.
End Batch.

(** X13. The loop over the userfiles passes to [open(path, 'w')] only
    paths of its list, in the order of the list and each at most once per
    entry; if it opens none, no file has changed. *)
Theorem batch_opens_listed_files_only (w : world) (sel : selector)
    (userfiles : list str) (n : N) :
  exists l,
    opened_w (fst (process_all w sel userfiles n)) = opened_w w ++ l /\
    l `sublist_of` userfiles /\
    (l = [] -> fs (fst (process_all w sel userfiles n)) = fs w).
Proof. apply process_all_opened. Qed.

Example batch_opened_paths :
  opened_w (fst (process_all small_world day_only [bob; carol; alice] 0))
  = [carol; alice].
Proof. reflexivity. Qed.

(** X14. The success counter grows by at most one per userfile: after the
    batch it lies between its start value and the start value plus the
    number of userfiles. *)
Theorem success_count_bounds (w : world) (sel : selector)
    (userfiles : list str) (n : N) :
  n <= snd (process_all w sel userfiles n) /\
  snd (process_all w sel userfiles n) <= n + N.of_nat (length userfiles).
Proof.
  split; [|apply process_all_counter].
  revert w n; induction userfiles as [|u rest IH]; intros w n.
  - simpl. lia.
  - cbn [process_all]. destruct (process_userfile w u sel) as [w' ok].
    specialize (IH w' (if ok then n + 1 else n)). destruct ok; lia.
Qed.

(** X15. On a list of distinct userfiles every file is handled as if it
    were the only one: it ends as a single call on the starting world
    leaves it, and the counter grows by the number of files on which such
    a call returns true; so the order of the list plays no part in the
    files or in the count. *)
Theorem batch_is_per_file (w : world) (sel : selector)
    (userfiles : list str) (n : N) :
  NoDup userfiles ->
  (forall path, path ∈ userfiles ->
     fs (fst (process_all w sel userfiles n)) path
     = fs (fst (process_userfile w path sel)) path) /\
  snd (process_all w sel userfiles n)
  = n + N.of_nat (length (List.filter
                            (fun path => snd (process_userfile w path sel))
                            userfiles)).
Proof.
  revert w n; induction userfiles as [|u rest IH]; intros w n Hnd.
  { split; [by intros path ?%elem_of_nil|simpl; lia]. }
  apply list.NoDup_cons in Hnd as [Hu Hnd]. cbn [process_all].
  destruct (process_userfile w u sel) as [w' ok] eqn:E.
  assert (Hw' : w' = fst (process_userfile w u sel)) by by rewrite E.
  assert (Hok : ok = snd (process_userfile w u sel)) by by rewrite E.
  destruct (IH w' (if ok then n + 1 else n) Hnd) as [IH1 IH2].
  assert (Hloc : forall path, path ∈ rest ->
    fs (fst (process_userfile w' path sel)) path
    = fs (fst (process_userfile w path sel)) path /\
    snd (process_userfile w' path sel) = snd (process_userfile w path sel)).
  { intros path Hp. apply process_userfile_local.
    rewrite Hw'. apply process_userfile_frame. by intros ->. }
  split.
  - intros path [->|Hp]%elem_of_cons.
    + by rewrite process_all_frame, Hw'.
    + rewrite IH1 by done. by apply Hloc.
  - rewrite IH2. cbn [List.filter]. rewrite <- Hok.
    assert (Hf : List.filter (fun path => snd (process_userfile w' path sel)) rest
               = List.filter (fun path => snd (process_userfile w path sel)) rest).
    { clear IH1 IH2 IH Hu Hnd. induction rest as [|r rest IHr]; [done|].
      cbn [List.filter].
      destruct (Hloc r) as [_ ->]; [by left|].
      rewrite IHr; [done|]. intros path Hp. apply Hloc. by right. }
    rewrite Hf. destruct ok; cbn [length]; lia.
Qed.

Lemma batch_is_per_file_witness :
  fs (fst (process_all small_world day_only [carol; alice] 0)) alice
  = fs (fst (process_userfile small_world alice day_only)) alice /\
  snd (process_all small_world day_only [carol; alice] 0)
  = 0 + N.of_nat (length (List.filter
        (fun path => snd (process_userfile small_world path day_only))
        [carol; alice])).
Proof.
  assert (Hnd : NoDup [carol; alice]).
  { apply list.NoDup_cons. split.
    - apply not_elem_of_cons; split; [done|]. apply not_elem_of_nil.
    - apply NoDup_singleton. }
  destruct (batch_is_per_file small_world day_only [carol; alice] 0 Hnd)
    as [Hfs Hn].
  split; [|exact Hn]. apply Hfs. apply elem_of_cons. right. by left.
Defined.

(** ** More on the selector *)

(** X16. When any of the four reset flags is given, the selector is
    exactly the flags given: the date and the [-e] option play no part,
    and nothing is printed. *)
Theorem explicit_flags_win (args : arguments) (now : datetime) :
  arg_day args || arg_week args || arg_month args || arg_alltime args = true ->
  determine_resets args now
  = (Selector (arg_day args) (arg_week args) (arg_month args)
       (arg_alltime args), []).
Proof. intros H. unfold determine_resets. by rewrite H. Qed.

Lemma explicit_flags_win_witness :
  determine_resets (Args true false true false false) (Datetime Monday 1)
  = (Selector false true false false, []).
Proof.
  apply (explicit_flags_win (Args true false true false false)
           (Datetime Monday 1)).
  reflexivity.
Defined.

(** X17. The selector handed to the records always has some flag set,
    and its all-time flag is set only when [-a] was given: the date never
    triggers an all-time reset. *)
Theorem selector_never_empty (args : arguments) (now : datetime) :
  let sel := fst (determine_resets args now) in
  reset_day sel || reset_week sel || reset_month sel || reset_all sel = true /\
  reset_all sel = arg_alltime args.
Proof.
  unfold determine_resets.
  destruct (arg_day args || arg_week args || arg_month args
            || arg_alltime args) eqn:H; simpl.
  - by rewrite H.
  - apply orb_false_iff in H as [_ ->].
    by destruct (_ =? _), (_ =? _).
Qed.

(** ** The driver *)

Section Driver.
Implicit Types (w : world) (sel : selector) (t : directory_tree)
  (args : cmdline) (now : datetime) (path dir : str).

Lemma print_all_fs w msgs : fs (print_all w msgs) = fs w.
Proof.
  unfold print_all. revert w; induction msgs as [|m msgs IH]; intros w;
    [done|]. simpl. by rewrite IH.
Qed.

Lemma print_all_stdout w msgs : stdout (print_all w msgs) = stdout w ++ msgs.
Proof.
  unfold print_all. revert w; induction msgs as [|m msgs IH]; intros w; simpl.
  - by rewrite app_nil_r.
  - rewrite IH. simpl. by rewrite <- app_assoc.
Qed.

Lemma collect_userfiles_elem t dir items path :
  path ∈ collect_userfiles t dir items ->
  exists item, item ∈ items /\ path = path_join dir item /\
               os_path_isfile t path = true.
Proof.
  induction items as [|item items IH]; simpl; [by intros ?%elem_of_nil|].
  destruct (os_path_isfile t (path_join dir item)) eqn:Hf.
  - intros [->|Hp]%elem_of_cons.
    + exists item. split; [by left|done].
    + destruct (IH Hp) as (i & Hi & H). exists i. split; [by right|done].
  - intros Hp. destruct (IH Hp) as (i & Hi & H).
    exists i. split; [by right|done].
Qed.

Lemma reset_items_nonempty sel :
  reset_day sel || reset_week sel || reset_month sel || reset_all sel = true ->
  reset_items sel <> [].
Proof. unfold reset_items. by destruct sel as [[] [] [] []]. Qed.

Lemma report_resets_fs w sel : fs (report_resets w sel) = fs w.
Proof. unfold report_resets. by destruct (reset_items sel). Qed.

Lemma process_userfile_errors w path sel :
  exists out,
    stdout (fst (process_userfile w path sel)) = stdout w ++ out /\
    Forall (fun m => startswith m (py "Error processing ") = true) out.
Proof.
  destruct (process_userfile_cases w path sel)
    as [(e & _ & ->)|[(ls & _ & _ & ->)|[(ls & e & _ & _ & _ & ->)
       |[(ls & n & e & _ & _ & _ & _ & ->)|(ls & _ & _ & _ & _ & ->)]]]];
    simpl;
    try (exists []; by rewrite app_nil_r);
    eexists; split; try reflexivity; by repeat constructor.
Qed.

Lemma print_all_opened w msgs : opened_w (print_all w msgs) = opened_w w.
Proof.
  unfold print_all. revert w; induction msgs as [|m msgs IH]; intros w;
    [done|]. simpl. by rewrite IH.
Qed.

Lemma report_resets_opened w sel :
  opened_w (report_resets w sel) = opened_w w.
Proof. unfold report_resets. by destruct (reset_items sel). Qed.

Lemma sublist_elem_of (l1 l2 : list str) path :
  l1 `sublist_of` l2 -> path ∈ l1 -> path ∈ l2.
Proof. intros Hsub Hin. by eapply (sublist_subseteq l1 l2). Qed.

Lemma process_all_errors w sel userfiles n :
  exists out,
    stdout (fst (process_all w sel userfiles n)) = stdout w ++ out /\
    Forall (fun m => startswith m (py "Error processing ") = true) out.
Proof.
  revert w n; induction userfiles as [|u rest IH]; intros w n.
  - exists []. simpl. by rewrite app_nil_r.
  - cbn [process_all].
    destruct (process_userfile_errors w u sel) as (out1 & H1 & F1).
    destruct (process_userfile w u sel) as [w' ok].
    destruct (IH w' (if ok then n + 1 else n)) as (out2 & -> & F2).
    simpl in H1. rewrite H1, <- app_assoc.
    exists (out1 ++ out2). split; [done|]. by apply Forall_app.
Qed.
End Driver.

Example main_plain_run :
  let '(w, o) := main plain_run (Datetime Sunday 1) users_tree small_world in
  o = Returned /\
  stdout w
  = [py "Weekly reset triggered";
     py "Monthly reset triggered";
     py "Processing 3 userfiles...";
     py "Error processing /glftpd/ftp-data/users/bob: [Errno 13] Permission denied";
     py "Error processing /glftpd/ftp-data/users/carol: [Errno 13] Permission denied";
     py "Successfully reset stats in 1 userfiles";
     py "Reset: Day, Week, Month statistics"].
Proof. split; reflexivity. Qed.

(** X18. A run that does not reach the end of [main] (the help screen, a
    missing user directory, a failing listing, a directory without regular
    files) has changed no file. *)
Theorem main_stopped_changes_nothing (args : cmdline) (now : datetime)
    (t : directory_tree) (w : world) :
  snd (main args now t w) <> Returned ->
  fs (fst (main args now t w)) = fs w.
Proof.
  unfold main.
  destruct (arg_help args); [intros _; apply print_all_fs|].
  destruct (os_path_exists t (userfile_dir args)); cbn [negb];
    [|intros _; apply print_all_fs].
  destruct (determine_resets (arg_resets args) now) as [sel triggered].
  destruct (os_listdir t (userfile_dir args)) as [e|items];
    [intros _; apply print_all_fs|].
  destruct (collect_userfiles t (userfile_dir args) items) as [|u us];
    cbn [negb].
  - intros _. apply print_all_fs.
  - by destruct (process_all _ sel (u :: us) 0).
Qed.

Lemma main_stopped_changes_nothing_witness :
  fs (fst (main {| arg_config := Some (py "/etc/glftpd.conf");
                   arg_help := false;
                   arg_resets := Args false true false false false |}
             (Datetime Monday 2) users_tree small_world))
  = fs small_world.
Proof.
  apply (main_stopped_changes_nothing
           {| arg_config := Some (py "/etc/glftpd.conf");
              arg_help := false;
              arg_resets := Args false true false false false |}
           (Datetime Monday 2) users_tree small_world).
  vm_compute. discriminate.
Defined.

(** X19. [main] passes to [open(path, 'w')] only regular files that lie
    directly in the user directory: every path it opens for writing is the
    join of the user directory and a listed name, and [os.path.isfile]
    holds of it; and if it opens none, no file has changed. *)
Theorem main_opens_userfiles_only (args : cmdline) (now : datetime)
    (t : directory_tree) (w : world) :
  exists l,
    opened_w (fst (main args now t w)) = opened_w w ++ l /\
    (forall path, path ∈ l ->
       exists items item,
         os_listdir t (userfile_dir args) = inr items /\
         item ∈ items /\
         path = path_join (userfile_dir args) item /\
         os_path_isfile t path = true) /\
    (l = [] -> fs (fst (main args now t w)) = fs w).
Proof.
  assert (Hnone : forall w', opened_w w' = opened_w w -> fs w' = fs w ->
    exists l, opened_w w' = opened_w w ++ l /\
      (forall path, path ∈ l ->
         exists items item,
           os_listdir t (userfile_dir args) = inr items /\
           item ∈ items /\
           path = path_join (userfile_dir args) item /\
           os_path_isfile t path = true) /\
      (l = [] -> fs w' = fs w)).
  { intros w' Ho Hfs. exists []. rewrite app_nil_r.
    split; [done|]. split; [by intros path ?%elem_of_nil|done]. }
  unfold main.
  destruct (arg_help args);
    [apply Hnone; [apply print_all_opened|apply print_all_fs]|].
  destruct (os_path_exists t (userfile_dir args)); cbn [negb];
    [|apply Hnone; [apply print_all_opened|apply print_all_fs]].
  destruct (determine_resets (arg_resets args) now) as [sel triggered].
  destruct (os_listdir t (userfile_dir args)) as [e|items];
    [apply Hnone; [apply print_all_opened|apply print_all_fs]|].
  destruct (collect_userfiles t (userfile_dir args) items) as [|u us] eqn:Hc;
    cbn [negb].
  { apply Hnone; [apply print_all_opened|apply print_all_fs]. }
  match goal with
  | |- context [process_all ?w0 sel (u :: us) 0] =>
      destruct (process_all_opened w0 sel (u :: us) 0) as (l & Hl & Hsub & Hfs);
      destruct (process_all w0 sel (u :: us) 0) as [w1 k]
  end.
  simpl in Hl, Hfs. cbn [fst]. exists l.
  rewrite report_resets_opened, report_resets_fs. cbn [opened_w fs print].
  rewrite Hl. cbn [opened_w print]. rewrite print_all_opened.
  split; [done|]. split.
  - intros path Hin. pose proof (sublist_elem_of _ _ _ Hsub Hin) as Hu.
    rewrite <- Hc in Hu.
    destruct (collect_userfiles_elem _ _ _ _ Hu) as (item & H).
    by exists items, item.
  - intros Hnil. rewrite (Hfs Hnil). cbn [fs print]. apply print_all_fs.
Qed.

Lemma main_opens_userfiles_only_witness :
  opened_w (fst (main plain_run (Datetime Tuesday 2) users_tree small_world))
  = [alice; carol] /\
  exists items item,
    os_listdir users_tree (userfile_dir plain_run) = inr items /\
    item ∈ items /\
    carol = path_join (userfile_dir plain_run) item /\
    os_path_isfile users_tree carol = true.
Proof.
  split; [reflexivity|].
  destruct (main_opens_userfiles_only plain_run (Datetime Tuesday 2)
              users_tree small_world) as (l & Hl & Hin & _).
  apply Hin.
  assert (l = [alice; carol]) as ->.
  { exact (eq_sym Hl). }
  apply elem_of_cons. right. by left.
Defined.

Section Report.
Implicit Types (w : world) (sel : selector).

Lemma determine_resets_some_flag a now :
  reset_items (fst (determine_resets a now)) <> [].
Proof.
  apply reset_items_nonempty. unfold determine_resets.
  destruct (arg_day a || arg_week a || arg_month a || arg_alltime a) eqn:H;
    simpl; [by rewrite H|].
  by destruct (_ =? _), (_ =? _).
Qed.

Lemma report_resets_stdout w sel :
  reset_items sel <> [] ->
  stdout (report_resets w sel)
  = stdout w ++ [py "Reset: " ++ str_join (py ", ") (reset_items sel)
                 ++ py " statistics"].
Proof. unfold report_resets. by destruct (reset_items sel). Qed.
End Report.

(** X20. What a completed run prints, after what was printed before: the
    trigger messages of the selector, the number of regular files found
    (at least one), one error message for each record that failed, the
    number of successes, which never exceeds the number of files, and
    last the summary of the resets, which is never left out. *)
Theorem main_report (args : cmdline) (now : datetime) (t : directory_tree)
    (w : world) :
  snd (main args now t w) = Returned ->
  exists items errors k,
    os_listdir t (userfile_dir args) = inr items /\
    let userfiles := collect_userfiles t (userfile_dir args) items in
    let sel := fst (determine_resets (arg_resets args) now) in
    1 <= N.of_nat (length userfiles) /\
    k <= N.of_nat (length userfiles) /\
    Forall (fun m => startswith m (py "Error processing ") = true) errors /\
    reset_items sel <> [] /\
    stdout (fst (main args now t w))
    = stdout w ++ snd (determine_resets (arg_resets args) now)
      ++ [py "Processing " ++ str_of_int (N.of_nat (length userfiles))
          ++ py " userfiles..."]
      ++ errors
      ++ [py "Successfully reset stats in " ++ str_of_int k
          ++ py " userfiles";
          py "Reset: " ++ str_join (py ", ") (reset_items sel)
          ++ py " statistics"].
Proof.
  unfold main.
  destruct (arg_help args); [done|].
  destruct (os_path_exists t (userfile_dir args)); cbn [negb]; [|done].
  pose proof (determine_resets_some_flag (arg_resets args) now) as Hsome.
  destruct (determine_resets (arg_resets args) now) as [sel triggered].
  destruct (os_listdir t (userfile_dir args)) as [e|items]; [done|].
  destruct (collect_userfiles t (userfile_dir args) items) as [|u us] eqn:Hc;
    [done|].
  cbn [negb]. intros _.
  match goal with
  | |- context [process_all ?w0 sel (u :: us) 0] =>
      destruct (process_all_errors w0 sel (u :: us) 0) as (errors & Hout & Hf);
      pose proof (process_all_counter w0 sel (u :: us) 0) as Hk;
      destruct (process_all w0 sel (u :: us) 0) as [w1 k]
  end.
  exists items, errors, k. split; [done|]. rewrite Hc.
  cbn [fst snd] in *.
  split; [cbn [length]; lia|]. split; [lia|]. split; [done|].
  split; [done|].
  rewrite report_resets_stdout by done. cbn [stdout print].
  rewrite Hout. cbn [stdout print]. rewrite print_all_stdout.
  by rewrite <- !app_assoc.
Qed.

Lemma main_report_witness :
  exists items errors k,
    os_listdir users_tree (userfile_dir plain_run) = inr items /\
    let userfiles :=
      collect_userfiles users_tree (userfile_dir plain_run) items in
    let sel := fst (determine_resets (arg_resets plain_run)
                      (Datetime Sunday 1)) in
    1 <= N.of_nat (length userfiles) /\
    k <= N.of_nat (length userfiles) /\
    Forall (fun m => startswith m (py "Error processing ") = true) errors /\
    reset_items sel <> [] /\
    stdout (fst (main plain_run (Datetime Sunday 1) users_tree small_world))
    = stdout small_world
      ++ snd (determine_resets (arg_resets plain_run) (Datetime Sunday 1))
      ++ [py "Processing " ++ str_of_int (N.of_nat (length userfiles))
          ++ py " userfiles..."]
      ++ errors
      ++ [py "Successfully reset stats in " ++ str_of_int k
          ++ py " userfiles";
          py "Reset: " ++ str_join (py ", ") (reset_items sel)
          ++ py " statistics"].
Proof.
  apply (main_report plain_run (Datetime Sunday 1) users_tree small_world).
  reflexivity.
Defined.

(** ** The user directory *)

Section Paths.
Implicit Types (d name s : str).

Lemma head_upto_sep_no_sep name :
  forallb (fun c => negb (c =? SLASH)) name = true -> head_upto_sep name = [].
Proof.
  induction name as [|c name IH]; [done|]. simpl.
  intros [Hc H]%andb_true_iff. apply negb_true_iff in Hc.
  by rewrite (IH H), Hc.
Qed.

Lemma head_upto_sep_app d name :
  forallb (fun c => negb (c =? SLASH)) name = true ->
  head_upto_sep (d ++ SLASH :: name) = d ++ [SLASH].
Proof.
  intros H. induction d as [|c d IH]; simpl.
  - by rewrite (head_upto_sep_no_sep _ H).
  - rewrite IH. destruct d; simpl; by rewrite orb_true_r.
Qed.

Lemma not_all_sep d s :
  d <> [] -> endswith_sep d = false ->
  forallb (fun c => c =? SLASH) (d ++ s) = false.
Proof.
  induction d as [|c d IH]; [done|]. intros _ H.
  destruct d as [|c' d].
  - simpl in *. by rewrite H.
  - change (endswith_sep (c :: c' :: d)) with (endswith_sep (c' :: d)) in H.
    change ((c :: c' :: d) ++ s) with (c :: (c' :: d) ++ s).
    cbn [forallb]. rewrite IH by done. apply andb_false_r.
Qed.

Lemma rstrip_sep_app d :
  d <> [] -> endswith_sep d = false -> rstrip_sep (d ++ [SLASH]) = d.
Proof.
  induction d as [|c d IH]; [done|]. intros _ H.
  destruct d as [|c' d].
  - simpl in *. by rewrite H.
  - change (endswith_sep (c :: c' :: d)) with (endswith_sep (c' :: d)) in H.
    change ((c :: c' :: d) ++ [SLASH]) with (c :: (c' :: d) ++ [SLASH]).
    cbn [rstrip_sep]. rewrite IH by done. simpl. by rewrite andb_false_r.
Qed.

Lemma dirname_app d name :
  d <> [] -> endswith_sep d = false ->
  forallb (fun c => negb (c =? SLASH)) name = true ->
  dirname (d ++ SLASH :: name) = d.
Proof.
  intros Hd He Hn. unfold dirname.
  rewrite (head_upto_sep_app _ _ Hn), (not_all_sep _ _ Hd He).
  rewrite (rstrip_sep_app _ Hd He). by destruct d.
Qed.
End Paths.

(** X21. The user directory under [-r]: for a config path made of a
    directory (not empty, not ending in a slash), a slash and a file name,
    it is that directory followed by "/ftp-data/users", that is, relative
    to the directory of the config file; for a config path with no slash
    at all it is the relative path "ftp-data/users". *)
Theorem userfile_dir_of_config (d name : str) (help : bool)
    (resets : arguments) :
  forallb (fun c => negb (c =? SLASH)) name = true ->
  (d <> [] -> endswith_sep d = false ->
   userfile_dir (Cmdline (Some (d ++ [SLASH] ++ name)) help resets)
   = d ++ [SLASH] ++ DEFAULT_USERFILE_DIR) /\
  (name <> [] ->
   userfile_dir (Cmdline (Some name) help resets) = DEFAULT_USERFILE_DIR).
Proof.
  intros Hn. split.
  - intros Hd He. unfold userfile_dir. cbn [arg_config].
    change (d ++ [SLASH] ++ name) with (d ++ SLASH :: name).
    assert (Ht : truthy (d ++ SLASH :: name) = true) by by destruct d.
    rewrite Ht, (dirname_app _ _ Hd He Hn).
    unfold path_join. rewrite He.
    replace (truthy d) with true by by destruct d. done.
  - intros Hne. unfold userfile_dir, dirname. cbn [arg_config].
    rewrite (head_upto_sep_no_sep _ Hn). by destruct name.
Qed.

Lemma userfile_dir_of_config_witness :
  userfile_dir (Cmdline (Some (py "/glftpd/etc" ++ [SLASH] ++ py "glftpd.conf"))
                  false (Args false false false false false))
  = py "/glftpd/etc" ++ [SLASH] ++ DEFAULT_USERFILE_DIR /\
  userfile_dir (Cmdline (Some (py "glftpd.conf")) false
                  (Args false false false false false))
  = DEFAULT_USERFILE_DIR.
Proof.
  destruct (userfile_dir_of_config (py "/glftpd/etc") (py "glftpd.conf")
              false (Args false false false false false)) as [H1 H2];
    [reflexivity|].
  split; [by apply H1|by apply H2].
Defined.

(** ** A rewrite without a change *)

Lemma concat_keepends (s : str) : concat (keepends s) = s.
Proof.
  induction s as [|c s IH]; [done|]. simpl.
  destruct (c =? LF); simpl; [by rewrite IH|].
  destruct (keepends s) as [|l ls]; simpl in *; by rewrite <- IH.
Qed.

(** X22. When the record processor returns true although the loop
    changed no line, the file is written with the text that was read: its
    contents are the old contents after the newline translation of text
    mode, so that a file without carriage returns is written back byte
    for byte. *)
Theorem rewrite_without_change (w w' : world) (userfile : str)
    (sel : selector) (lines : list str) :
  process_userfile w userfile sel = (w', true) ->
  readlines w userfile = inr lines ->
  fst (process_lines sel lines) = lines ->
  data (fs w' userfile) = universal_newlines (data (fs w userfile)) /\
  (no_CR (data (fs w userfile)) = true ->
   data (fs w' userfile) = data (fs w userfile)).
Proof.
  intros Hp Hr Hsame.
  assert (Hd : data (fs w' userfile)
               = universal_newlines (data (fs w userfile))).
  { destruct (process_userfile_cases w userfile sel)
      as [(e & _ & E)|[(ls & _ & _ & E)|[(ls & e & _ & _ & _ & E)
         |[(ls & n & e & _ & _ & _ & _ & E)|(ls & Hr' & _ & _ & _ & E)]]]];
      rewrite E in Hp; try done.
    injection Hp as <-. simpl. rewrite fn_lookup_insert. simpl.
    rewrite Hr in Hr'. injection Hr' as <-.
    unfold process_lines in Hsame. simpl in Hsame. rewrite Hsame.
    unfold readlines in Hr. destruct (read_err (fs w userfile)); [done|].
    injection Hr as <-. apply concat_keepends. }
  split; [exact Hd|]. intros Hcr. by rewrite Hd, universal_newlines_id.
Qed.

Lemma rewrite_without_change_witness :
  data (fs (fst (process_userfile small_world alice day_only)) alice)
  = universal_newlines (data (fs small_world alice)) /\
  data (fs (fst (process_userfile small_world alice day_only)) alice)
  = data (fs small_world alice).
Proof.
  destruct (rewrite_without_change small_world
              (fst (process_userfile small_world alice day_only))
              alice day_only already_reset) as [H1 H2];
    [reflexivity|reflexivity|reflexivity|].
  split; [exact H1|]. apply H2. reflexivity.
Defined.
